(** * l02: postal code to weather, a two-hop HTTP pipeline

    A shallow embedding of the two services of the repository and of the two
    collaborator clients of the second one:

    - [app1]: the Edge service ([app1/main.go]), [POST /weather-by-cep];
    - [app2]: the Orchestrator service ([app2/main.go]),
      [GET /get-weather-by-cep];
    - [viacep]: the Address Resolver ([app2/viacep/viacep.go]);
    - [weatherapi]: the Weather Resolver ([app2/weatherapi/weatherapi.go]).

    Conventions.

    - A Go [string] is a Rocq [string]: a sequence of bytes.
    - A Go [float64] is a primitive binary64 [float].
    - A Go [(T, error)] result is a [result T].
    - Code that talks to the outside (tracer, logger, environment, HTTP client,
      interface-typed collaborators) is written in the monad [prog]: a finite
      tree of commands whose answers come from the environment.  [run]
      executes a program against an arbitrary stateful environment and
      returns the value together with the list of commands issued and the
      answers received. *)

From Stdlib Require Import String Ascii List ZArith NArith Lia Bool Floats.
From Stdlib Require Import Sorted.
Import ListNotations.

Set Warnings "-inexact-float,-register-all".
Set Implicit Arguments.

Open Scope list_scope.
Open Scope string_scope.

(* ================================================================= *)
(** ** Go values shared by all packages *)

(** Go [error] values.  The four package-level sentinels are created once by
    [fmt.Errorf] and compared by identity ([err == viacep.ErrCepNotFound]);
    every other error (made by [net/http], [net/url] or [encoding/json]) is
    an [ErrLibrary] carrying its text. *)
Inductive error : Type :=
| viacep_ErrCepNotFound
| viacep_ErrInternal
| weatherapi_ErrCityNotFound
| weatherapi_ErrInternal
| ErrLibrary (text : string).

(** [err.Error()] *)
Definition Error (e : error) : string :=
  match e with
  | viacep_ErrCepNotFound => "CEP não encontrado"
  | viacep_ErrInternal => "ocorreu um erro interno ao buscar o CEP"
  | weatherapi_ErrCityNotFound => "cidade não encontrada"
  | weatherapi_ErrInternal => "ocorreu um erro interno ao buscar o clima"
  | ErrLibrary text => text
  end.

(** A Go pair [(v, err)] with exactly one side set. *)
Inductive result (T : Type) : Type :=
| Ok (v : T)
| Err (e : error).
Arguments Ok {T} v.
Arguments Err {T} e.

(* ================================================================= *)
(** ** Package regexp: the fragment used by [cepRegex] *)

Module regexp.

(** Syntax trees of [regexp/syntax], restricted to the operators the pattern
    of the repository parses to.  Matching is on bytes: every atom of the
    pattern is ASCII, and no byte of a multi-byte UTF-8 sequence (or of an
    invalid one) is ASCII, so a byte matches an atom exactly when the rune it
    belongs to does. *)
Inductive Regexp : Type :=
| OpEmptyMatch
| OpLiteral (c : ascii)
| OpCharClass (lo hi : ascii)
| OpBeginText
| OpEndText
| OpConcat (r1 r2 : Regexp)
| OpAlternate (r1 r2 : Regexp)
| OpRepeat (n : nat) (r : Regexp).

Definition inRange (lo hi c : ascii) : bool :=
  (N_of_ascii lo <=? N_of_ascii c)%N && (N_of_ascii c <=? N_of_ascii hi)%N.

(** A position in the text: whether it is the beginning of the text, and what
    is left to read. *)
Definition pos : Type := bool * string.

Fixpoint iter (n : nat) (f : pos -> list pos) (ps : list pos) : list pos :=
  match n with
  | O => ps
  | S n' => iter n' f (flat_map f ps)
  end.

(** All positions at which a match of [r] that starts at [p] can end. *)
Fixpoint ends (r : Regexp) (p : pos) : list pos :=
  match r with
  | OpEmptyMatch => [p]
  | OpLiteral c =>
      match snd p with
      | String a rest => if Ascii.eqb a c then [(false, rest)] else []
      | EmptyString => []
      end
  | OpCharClass lo hi =>
      match snd p with
      | String a rest => if inRange lo hi a then [(false, rest)] else []
      | EmptyString => []
      end
  | OpBeginText => if fst p then [p] else []
  | OpEndText =>
      match snd p with
      | EmptyString => [p]
      | String _ _ => []
      end
  | OpConcat r1 r2 => flat_map (ends r2) (ends r1 p)
  | OpAlternate r1 r2 => (ends r1 p ++ ends r2 p)%list
  | OpRepeat n r1 => iter n (ends r1) [p]
  end.

Definition matchesAt (r : Regexp) (p : pos) : bool :=
  match ends r p with
  | [] => false
  | _ :: _ => true
  end.

(** The unanchored search of [MatchString]: a match may start at any position
    of the text. *)
Fixpoint search (r : Regexp) (bot : bool) (s : string) : bool :=
  matchesAt r (bot, s)
  || match s with
     | EmptyString => false
     | String _ rest => search r false rest
     end.

(** [re.MatchString(s)] *)
Definition MatchString (r : Regexp) (s : string) : bool := search r true s.

End regexp.

(** [regextCepPattern = `^[0-9]{5}-[0-9]{3}$`], as [regexp.MustCompile]
    parses it.  Both services declare the same constant. *)
Definition cepRegex : regexp.Regexp :=
  regexp.OpConcat regexp.OpBeginText
   (regexp.OpConcat (regexp.OpRepeat 5 (regexp.OpCharClass "0" "9"))
     (regexp.OpConcat (regexp.OpLiteral "-")
       (regexp.OpConcat (regexp.OpRepeat 3 (regexp.OpCharClass "0" "9"))
         regexp.OpEndText))).

(* ================================================================= *)
(** ** Package net/url: query strings *)

Module url.

(** The fields of [url.URL] the repository reads or writes. *)
Record URL : Type := mkURL {
  Scheme : string;
  Host : string;
  Path : string;
  RawQuery : string;
  Fragment : string
}.

Definition setPath (u : URL) (p : string) : URL :=
  mkURL (Scheme u) (Host u) p (RawQuery u) (Fragment u).

Definition setRawQuery (u : URL) (q : string) : URL :=
  mkURL (Scheme u) (Host u) (Path u) q (Fragment u).

(** [url.Values] is [map[string][]string].  The map is kept as an association
    list sorted by key, without repeated keys: the order in which [Encode]
    visits the keys. *)
Definition Values : Type := list (string * list string).

(** [v.Get(key)]: the first value of [key], or the empty string. *)
Fixpoint Values_Get (v : Values) (key : string) : string :=
  match v with
  | [] => ""
  | (k, vs) :: rest =>
      if String.eqb k key then hd "" vs else Values_Get rest key
  end.

(** [m[key] = f(m[key])], keeping the keys sorted. *)
Fixpoint update (v : Values) (key : string) (f : list string -> list string)
  : Values :=
  match v with
  | [] => [(key, f [])]
  | (k, vs) :: rest =>
      if String.eqb k key then (k, f vs) :: rest
      else if String.ltb key k then (key, f []) :: (k, vs) :: rest
      else (k, vs) :: update rest key f
  end.

(** [v.Set(key, value)] *)
Definition Values_Set (v : Values) (key value : string) : Values :=
  update v key (fun _ => [value]).

(** [v.Add(key, value)] *)
Definition Values_Add (v : Values) (key value : string) : Values :=
  update v key (fun vs => (vs ++ [value])%list).

Definition isAlnum (c : ascii) : bool :=
  regexp.inRange "a" "z" c || regexp.inRange "A" "Z" c
  || regexp.inRange "0" "9" c.

(** [shouldEscape(c, encodeQueryComponent)] *)
Definition shouldEscape (c : ascii) : bool :=
  if isAlnum c then false
  else if Ascii.eqb c "-" || Ascii.eqb c "_" || Ascii.eqb c "."
          || Ascii.eqb c "~"
  then false
  else true.

(** ["0123456789ABCDEF"[n]] for [n < 16] *)
Definition upperhex (n : N) : ascii :=
  if (n <? 10)%N then ascii_of_N (48 + n) else ascii_of_N (55 + n).

(** [url.QueryEscape] *)
Fixpoint QueryEscape (s : string) : string :=
  match s with
  | EmptyString => EmptyString
  | String c rest =>
      if shouldEscape c then
        if Ascii.eqb c " " then String "+" (QueryEscape rest)
        else String "%" (String (upperhex (N_of_ascii c / 16))
                          (String (upperhex (N_of_ascii c mod 16))
                            (QueryEscape rest)))
      else String c (QueryEscape rest)
  end.

(** [unhex], with [ishex] as its domain *)
Definition unhex (c : ascii) : option N :=
  if regexp.inRange "0" "9" c then Some (N_of_ascii c - 48)%N
  else if regexp.inRange "a" "f" c then Some (N_of_ascii c - 97 + 10)%N
  else if regexp.inRange "A" "F" c then Some (N_of_ascii c - 65 + 10)%N
  else None.

(** [url.QueryUnescape]; [None] is its [EscapeError]. *)
Fixpoint QueryUnescape (s : string) : option string :=
  match s with
  | EmptyString => Some EmptyString
  | String c rest =>
      if Ascii.eqb c "%" then
        match rest with
        | String h1 (String h2 rest') =>
            match unhex h1, unhex h2, QueryUnescape rest' with
            | Some a, Some b, Some t => Some (String (ascii_of_N (16 * a + b)) t)
            | _, _, _ => None
            end
        | _ => None
        end
      else
        match QueryUnescape rest with
        | Some t => Some (String (if Ascii.eqb c "+" then " "%char else c) t)
        | None => None
        end
  end.

(** [strings.Cut(s, sep)] for a one-byte separator; when [sep] does not occur
    the whole of [s] comes first and the rest is empty. *)
Fixpoint cut (sep : ascii) (s : string) : string * string :=
  match s with
  | EmptyString => (EmptyString, EmptyString)
  | String c rest =>
      if Ascii.eqb c sep then (EmptyString, rest)
      else let (a, b) := cut sep rest in (String c a, b)
  end.

(** The pieces of [s] between occurrences of [sep]. *)
Fixpoint split (sep : ascii) (s : string) : list string :=
  match s with
  | EmptyString => [EmptyString]
  | String c rest =>
      if Ascii.eqb c sep then EmptyString :: split sep rest
      else match split sep rest with
           | x :: xs => String c x :: xs
           | [] => [String c EmptyString]
           end
  end.

Fixpoint contains (c : ascii) (s : string) : bool :=
  match s with
  | EmptyString => false
  | String a rest => Ascii.eqb a c || contains c rest
  end.

(** One turn of the loop of [parseQuery]: a piece with a semicolon, an empty
    piece, and a piece whose key or value does not unescape are skipped. *)
Definition parsePair (m : Values) (piece : string) : Values :=
  if contains ";" piece then m
  else if String.eqb piece "" then m
  else
    let (key, value) := cut "=" piece in
    match QueryUnescape key, QueryUnescape value with
    | Some key', Some value' => Values_Add m key' value'
    | _, _ => m
    end.

(** [u.Query()]: [ParseQuery(u.RawQuery)] with its error dropped. *)
Definition ParseQuery (query : string) : Values :=
  fold_left parsePair (split "&" query) [].

Definition URL_Query (u : URL) : Values := ParseQuery (RawQuery u).

(** [v.Encode()]: [key=value] pairs joined by [&], keys in sorted order. *)
Definition Values_Encode (v : Values) : string :=
  String.concat "&"
    (flat_map
       (fun kv : string * list string =>
          map (fun x => QueryEscape (fst kv) ++ "=" ++ QueryEscape x) (snd kv))
       v).

End url.

(* ================================================================= *)
(** ** Package encoding/json: documents and struct decoding *)

Module json.

(** A JSON document.  A number is identified with the [float64] it reads as
    ([strconv.ParseFloat]); an infinite one stands for a literal outside the
    range of [float64], which the decoder refuses. *)
Inductive Value : Type :=
| JNull
| JBool (b : bool)
| JNumber (f : float)
| JString (s : string)
| JArray (elems : list Value)
| JObject (members : list (string * Value)).

(** The [Value] field of an [UnmarshalTypeError]. *)
Definition kind (v : Value) : string :=
  match v with
  | JNull => "null"
  | JBool _ => "bool"
  | JNumber _ => "number"
  | JString _ => "string"
  | JArray _ => "array"
  | JObject _ => "object"
  end.

(** [*json.UnmarshalTypeError] for a member of a struct. *)
Definition UnmarshalTypeError (v : Value) (field type : string) : error :=
  ErrLibrary ("json: cannot unmarshal " ++ kind v ++ " into Go struct field "
              ++ field ++ " of type " ++ type).

(** [*json.UnmarshalTypeError] at the top of the document. *)
Definition UnmarshalValueError (v : Value) (type : string) : error :=
  ErrLibrary ("json: cannot unmarshal " ++ kind v ++ " into Go value of type "
              ++ type).

(** [*json.UnsupportedValueError]: the encoder refuses NaN and infinities. *)
Definition UnsupportedValueError : error :=
  ErrLibrary "json: unsupported value".

(** Decoding a document into a Go variable of a scalar type.  [null] leaves
    the variable as it is; a document of another kind is a type error. *)
Definition intoString (field : string) (v : Value) (old : string)
  : result string :=
  match v with
  | JString s => Ok s
  | JNull => Ok old
  | _ => Err (UnmarshalTypeError v field "string")
  end.

Definition intoFloat64 (field : string) (v : Value) (old : float)
  : result float :=
  match v with
  | JNumber f =>
      if PrimFloat.is_finite f then Ok f
      else Err (UnmarshalTypeError v field "float64")
  | JNull => Ok old
  | _ => Err (UnmarshalTypeError v field "float64")
  end.

Definition intoBool (field : string) (v : Value) (old : bool) : result bool :=
  match v with
  | JBool b => Ok b
  | JNull => Ok old
  | _ => Err (UnmarshalTypeError v field "bool")
  end.

Section Struct.

(** [equalFold name key]: the case-insensitive comparison of a struct field's
    JSON name with a key of the document. *)
Variable equalFold : string -> string -> bool.

(** The field a key of the document selects: the one with exactly that name,
    or else the first one that matches case-insensitively. *)
Definition findField (names : list string) (key : string) : option string :=
  match find (String.eqb key) names with
  | Some n => Some n
  | None => find (fun n => equalFold n key) names
  end.

Variable T : Type.
Variable names : list string.
Variable assign : string -> Value -> T -> result T.

(** The members of an object are decoded in document order into the fields
    they select (a later member overwrites an earlier one); members that
    select no field are skipped.  The first error is the one reported. *)
Definition member (acc : result T) (kv : string * Value) : result T :=
  match acc with
  | Err e => Err e
  | Ok t =>
      match findField names (fst kv) with
      | Some n => assign n (snd kv) t
      | None => Ok t
      end
  end.

(** Decoding a document into a struct variable holding [t]. *)
Definition intoStruct (type : string) (v : Value) (t : T) : result T :=
  match v with
  | JObject members => fold_left member members (Ok t)
  | JNull => Ok t
  | _ => Err (UnmarshalValueError v type)
  end.

End Struct.

(** The encoder's treatment of a [float64]. *)
Definition ofFloat64 (f : float) : option Value :=
  if PrimFloat.is_finite f then Some (JNumber f) else None.

End json.

(* ================================================================= *)
(** ** Package net/http: requests and responses *)

Module http.

(** What travels as the body of a message: a JSON document, or bytes given as
    they are (the plain-text bodies of [http.Error], or anything else). *)
Inductive body : Type :=
| Document (v : json.Value)
| Plain (bytes : string).

Record Request : Type := mkRequest {
  Method : string;
  URL : url.URL;
  Header : list (string * string);
  Body : body
}.

(** A response: as a client receives it, and as a handler leaves it in its
    [http.ResponseWriter]. *)
Record Response : Type := mkResponse {
  StatusCode : Z;
  ResponseHeader : list (string * string);
  ResponseBody : body
}.

Definition StatusOK : Z := 200.
Definition StatusBadRequest : Z := 400.
Definition StatusNotFound : Z := 404.
Definition StatusUnprocessableEntity : Z := 422.
Definition StatusInternalServerError : Z := 500.

(** [http.Error(w, msg, code)]: the message and a newline as plain text. *)
Definition Error (msg : string) (code : Z) : Response :=
  mkResponse code
    [("Content-Type", "text/plain; charset=utf-8");
     ("X-Content-Type-Options", "nosniff")]
    (Plain (msg ++ String "010" EmptyString)).

End http.

(** What the Go runtime's libraries contribute and this development leaves
    open: the URL parser and printer of [net/url], the scanner of
    [encoding/json] on raw bytes, and its case folding of member names. *)
Record Runtime : Type := {
  url_Parse : string -> result url.URL;
  URL_String : url.URL -> string;
  json_scan : string -> result json.Value;
  json_equalFold : string -> string -> bool
}.

(** The document a [json.Decoder] reads from a body. *)
Definition readDocument (rt : Runtime) (b : http.body) : result json.Value :=
  match b with
  | http.Document v => Ok v
  | http.Plain bytes => json_scan rt bytes
  end.

(** [http.NewRequestWithContext(ctx, method, url, nil)] for a valid method and
    a context that is not nil: it fails exactly when the URL does not parse. *)
Definition NewRequestWithContext (rt : Runtime) (method urlStr : string)
  : result http.Request :=
  match url_Parse rt urlStr with
  | Ok u => Ok (http.mkRequest method u [] (http.Plain ""))
  | Err e => Err e
  end.

(* ================================================================= *)
(** ** The payloads of the two upstream APIs

    The structs the two resolver packages export.  They are declared ahead of
    the packages' clients because the interfaces [viacep.ViaCepClient] and
    [weatherapi.WeatherApiClient] mention them. *)

Module viacep_types.

(** [viacep.ViaCepResponse] *)
Record ViaCepResponse : Type := mkViaCepResponse {
  Cep : string;      (* json:"cep" *)
  Street : string;   (* json:"logradouro" *)
  City : string;     (* json:"localidade" *)
  State : string;    (* json:"uf" *)
  Erro : bool        (* json:"erro" *)
}.

End viacep_types.

Module weatherapi_types.

(** [weatherapi.CurrentWeather] *)
Record CurrentWeather : Type := mkCurrentWeather {
  TempC : float;     (* json:"temp_c" *)
  TempF : float      (* json:"temp_f" *)
}.

(** [weatherapi.WeatherApiResponse] *)
Record WeatherApiResponse : Type := mkWeatherApiResponse {
  Current : CurrentWeather;   (* json:"current" *)
  Erro : bool                 (* json:"erro" *)
}.

End weatherapi_types.

Abbreviation ViaCepResponse := viacep_types.ViaCepResponse.
Abbreviation WeatherApiResponse := weatherapi_types.WeatherApiResponse.

(* ================================================================= *)
(** ** Programs over the outside world *)

(** Values of span attributes ([attribute.String], [attribute.Int]). *)
Inductive attribute : Type :=
| AttrString (s : string)
| AttrInt (n : Z).

Definition KeyValue : Type := (string * attribute)%type.

(** The calls that leave the code of the repository. *)
Inductive cmd : Type :=
| TracerStart (spanName : string)             (* tracer.Start(ctx, name) *)
| SpanSetAttributes (kvs : list KeyValue)     (* span.SetAttributes(...) *)
| SpanRecordError (err : error)               (* span.RecordError(err) *)
| SpanAddEvent (name : string)                (* span.AddEvent(name) *)
| SpanEnd                                     (* span.End() *)
| LoggerPrintf (line : string)                (* logger.Printf, formatted *)
| Getenv (key : string)                       (* os.Getenv(key) *)
| DefaultTransport (req : http.Request)       (* http.DefaultTransport.RoundTrip *)
| ViaCepClient (cep : string)                 (* interface viacep.ViaCepClient *)
| WeatherApiClient (city : string).           (* interface weatherapi.WeatherApiClient *)

(** What each call gives back. *)
Definition ans (c : cmd) : Type :=
  match c with
  | Getenv _ => string
  | DefaultTransport _ => result http.Response
  | ViaCepClient _ => result ViaCepResponse
  | WeatherApiClient _ => result WeatherApiResponse
  | _ => unit
  end.

(** A program: a value, or a call and what to do with its answer. *)
Inductive prog (R : Type) : Type :=
| Ret (r : R)
| Vis (c : cmd) (k : ans c -> prog R).
Arguments Ret {R} r.
Arguments Vis {R} c k.

Fixpoint bind {A B : Type} (p : prog A) (f : A -> prog B) : prog B :=
  match p with
  | Ret a => f a
  | Vis c k => Vis c (fun x => bind (k x) f)
  end.

Definition call (c : cmd) : prog (ans c) := Vis c Ret.

Declare Scope prog_scope.
Delimit Scope prog_scope with prog.
Notation "x <- p ;; q" := (bind p (fun x => q))
  (at level 61, p at next level, right associativity) : prog_scope.
Notation "p ;; q" := (bind p (fun _ => q))
  (at level 61, right associativity) : prog_scope.
Open Scope prog_scope.

(** An answer, whatever the call. *)
Inductive answer : Type :=
| AUnit
| AString (s : string)
| AResponse (r : result http.Response)
| AAddress (r : result ViaCepResponse)
| AWeather (r : result WeatherApiResponse).

Definition reify (c : cmd) : ans c -> answer :=
  match c return ans c -> answer with
  | Getenv _ => AString
  | DefaultTransport _ => AResponse
  | ViaCepClient _ => AAddress
  | WeatherApiClient _ => AWeather
  | _ => fun _ => AUnit
  end.

(** One entry of the trace of a run: a call and its answer. *)
Definition event : Type := (cmd * answer)%type.

(** The outside world: a state, and for every call an answer and a next
    state. *)
Definition world (W : Type) : Type := forall c : cmd, W -> ans c * W.

Record outcome (W R : Type) : Type := mkOutcome {
  value : R;
  trace : list event;
  final : W
}.

(** Running a program in a world. *)
Fixpoint run {W R : Type} (env : world W) (p : prog R) (w : W) : outcome W R :=
  match p with
  | Ret r => mkOutcome r [] w
  | Vis c k =>
      let (x, w') := env c w in
      let o := run env (k x) w' in
      mkOutcome (value o) ((c, reify c x) :: trace o) (final o)
  end.

(** [defer span.End()] around the body of a traced function. *)
Definition traced {R : Type} (spanName : string) (body : prog R) : prog R :=
  call (TracerStart spanName) ;;
  r <- body ;;
  call SpanEnd ;;
  Ret r.

(** Attribute keys of [go.opentelemetry.io/otel/semconv/v1.24.0]. *)
Definition semconv_HTTPStatusCodeKey : string := "http.status_code".
Definition semconv_HTTPURLKey : string := "http.url".
Definition semconv_URLFullKey : string := "url.full".

(** [http.RoundTripper]: the capability of sending a request and getting a
    response. *)
Definition RoundTripper : Type := http.Request -> prog (result http.Response).

(** [http.Client], with its timeout in seconds. *)
Record http_Client : Type := mkHttpClient {
  Transport : RoundTripper;
  Timeout : Z
}.

(** [client.Do(req)]: the exchange is the transport's.  A chain of redirects
    counts as one exchange, answered by its last response. *)
Definition http_Client_Do (c : http_Client) (req : http.Request)
  : prog (result http.Response) :=
  Transport c req.

(** [http.DefaultTransport], the network. *)
Definition http_DefaultTransport : RoundTripper :=
  fun req => call (DefaultTransport req).

(** [otelhttp.NewTransport(base)]: hands the request to [base].  The client
    span it opens around the exchange is the span the wrapped transport finds
    in the request's context. *)
Definition otelhttp_NewTransport (base : RoundTripper) : RoundTripper := base.

(* ================================================================= *)
(** ** Package viacep: the Address Resolver *)

Module viacep.
Import viacep_types.

Definition ErrCepNotFound : error := viacep_ErrCepNotFound.
Definition ErrInternal : error := viacep_ErrInternal.

Record Client : Type := mkClient {
  httpClient : http_Client;
  baseURL : string
}.

(** [NewClient(logger, tracer)] *)
Definition NewClient : Client :=
  mkClient
    (mkHttpClient (otelhttp_NewTransport http_DefaultTransport) 5)
    "https://viacep.com.br".

(** [client.baseURL = server.URL], as the tests of the package do. *)
Definition withBaseURL (c : Client) (b : string) : Client :=
  mkClient (httpClient c) b.

Definition fieldNames : list string :=
  ["cep"; "logradouro"; "localidade"; "uf"; "erro"].

Definition assign (n : string) (v : json.Value) (d : ViaCepResponse)
  : result ViaCepResponse :=
  if String.eqb n "cep" then
    match json.intoString "ViaCepResponse.cep" v (Cep d) with
    | Ok x => Ok (mkViaCepResponse x (Street d) (City d) (State d) (Erro d))
    | Err e => Err e
    end
  else if String.eqb n "logradouro" then
    match json.intoString "ViaCepResponse.logradouro" v (Street d) with
    | Ok x => Ok (mkViaCepResponse (Cep d) x (City d) (State d) (Erro d))
    | Err e => Err e
    end
  else if String.eqb n "localidade" then
    match json.intoString "ViaCepResponse.localidade" v (City d) with
    | Ok x => Ok (mkViaCepResponse (Cep d) (Street d) x (State d) (Erro d))
    | Err e => Err e
    end
  else if String.eqb n "uf" then
    match json.intoString "ViaCepResponse.uf" v (State d) with
    | Ok x => Ok (mkViaCepResponse (Cep d) (Street d) (City d) x (Erro d))
    | Err e => Err e
    end
  else
    match json.intoBool "ViaCepResponse.erro" v (Erro d) with
    | Ok x => Ok (mkViaCepResponse (Cep d) (Street d) (City d) (State d) x)
    | Err e => Err e
    end.

(** [json.NewDecoder(resp.Body).Decode(&data)] for [var data ViaCepResponse] *)
Definition Decode (rt : Runtime) (b : http.body) : result ViaCepResponse :=
  match readDocument rt b with
  | Err e => Err e
  | Ok v =>
      json.intoStruct (json_equalFold rt) fieldNames assign
        "viacep.ViaCepResponse" v
        (mkViaCepResponse "" "" "" "" false)
  end.

(** [func (c *Client) FindAddressByCep(ctx, cep)] *)
Definition FindAddressByCep (rt : Runtime) (c : Client) (cep : string)
  : prog (result ViaCepResponse) :=
  traced "FindAddressByCep"
    (call (SpanSetAttributes [("cep.value", AttrString cep)]) ;;
     let url := baseURL c ++ "/ws/" ++ cep ++ "/json/" in
     match NewRequestWithContext rt "GET" url with
     | Err err =>
         call (SpanRecordError err) ;;
         Ret (Err err)
     | Ok req =>
         r <- http_Client_Do (httpClient c) req ;;
         match r with
         | Err err =>
             call (SpanRecordError err) ;;
             call (LoggerPrintf
                     ("Error requesting from ViaCEP API: " ++ Error err)) ;;
             Ret (Err ErrInternal)
         | Ok resp =>
             call (SpanSetAttributes
                     [(semconv_HTTPStatusCodeKey,
                       AttrInt (http.StatusCode resp))]) ;;
             if negb (http.StatusCode resp =? http.StatusOK)%Z then
               call (SpanAddEvent "ViaCEP API returned non-OK status") ;;
               Ret (Err ErrCepNotFound)
             else
               match Decode rt (http.ResponseBody resp) with
               | Err err =>
                   call (SpanRecordError err) ;;
                   call (LoggerPrintf
                           ("Error decoding ViaCEP API response: "
                            ++ Error err)) ;;
                   Ret (Err ErrInternal)
               | Ok data =>
                   if Erro data then
                     call (SpanAddEvent
                             "ViaCEP API response indicates CEP not found (erro=true)") ;;
                     Ret (Err ErrCepNotFound)
                   else
                     Ret (Ok data)
               end
         end
     end).

End viacep.

(* ================================================================= *)
(** ** Package weatherapi: the Weather Resolver *)

Module weatherapi.
Import weatherapi_types.

Definition ErrCityNotFound : error := weatherapi_ErrCityNotFound.
Definition ErrInternal : error := weatherapi_ErrInternal.

Record Client : Type := mkClient {
  apiKey : string;
  httpClient : http_Client;
  baseURL : string
}.

(** [func (t *redactingTransport) RoundTrip(req)],
    for a transport whose [base] is [base].  [req.URL] is never nil in a
    request made by [http.NewRequestWithContext]. *)
Definition redactingTransport_RoundTrip (rt : Runtime) (base : RoundTripper)
  : RoundTripper :=
  fun req =>
    let q := url.URL_Query (http.URL req) in
    (if negb (String.eqb (url.Values_Get q "key") "") then
       let newQuery := url.URL_Query (http.URL req) in
       let newQuery := url.Values_Set newQuery "key" "***" in
       let sanitizedURL :=
         url.setRawQuery (http.URL req) (url.Values_Encode newQuery) in
       let sanitizedURLString := URL_String rt sanitizedURL in
       call (SpanSetAttributes
               [(semconv_HTTPURLKey, AttrString sanitizedURLString);
                (semconv_URLFullKey, AttrString sanitizedURLString)])
     else Ret tt) ;;
    base req.

(** [NewClient(apiKey, logger, tracer)] *)
Definition NewClient (rt : Runtime) (apiKey : string) : Client :=
  let otelTransport :=
    otelhttp_NewTransport
      (redactingTransport_RoundTrip rt http_DefaultTransport) in
  mkClient apiKey (mkHttpClient otelTransport 5)
    "https://api.weatherapi.com/v1".

(** [client.baseURL = server.URL], as a test of the package would do. *)
Definition withBaseURL (c : Client) (b : string) : Client :=
  mkClient (apiKey c) (httpClient c) b.

Definition currentNames : list string := ["temp_c"; "temp_f"].

Definition assignCurrent (n : string) (v : json.Value) (d : CurrentWeather)
  : result CurrentWeather :=
  if String.eqb n "temp_c" then
    match json.intoFloat64 "WeatherApiResponse.current.temp_c" v (TempC d) with
    | Ok x => Ok (mkCurrentWeather x (TempF d))
    | Err e => Err e
    end
  else
    match json.intoFloat64 "WeatherApiResponse.current.temp_f" v (TempF d) with
    | Ok x => Ok (mkCurrentWeather (TempC d) x)
    | Err e => Err e
    end.

Definition fieldNames : list string := ["current"; "erro"].

Definition assign (rt : Runtime) (n : string) (v : json.Value)
  (d : WeatherApiResponse) : result WeatherApiResponse :=
  if String.eqb n "current" then
    match v with
    | json.JObject _ | json.JNull =>
        match json.intoStruct (json_equalFold rt) currentNames assignCurrent
                "weatherapi.CurrentWeather" v (Current d) with
        | Ok x => Ok (mkWeatherApiResponse x (Erro d))
        | Err e => Err e
        end
    | _ =>
        Err (json.UnmarshalTypeError v "WeatherApiResponse.current"
               "weatherapi.CurrentWeather")
    end
  else
    match json.intoBool "WeatherApiResponse.erro" v (Erro d) with
    | Ok x => Ok (mkWeatherApiResponse (Current d) x)
    | Err e => Err e
    end.

(** [json.NewDecoder(resp.Body).Decode(&data)] for
    [var data WeatherApiResponse] *)
Definition Decode (rt : Runtime) (b : http.body) : result WeatherApiResponse :=
  match readDocument rt b with
  | Err e => Err e
  | Ok v =>
      json.intoStruct (json_equalFold rt) fieldNames (assign rt)
        "weatherapi.WeatherApiResponse" v
        (mkWeatherApiResponse (mkCurrentWeather 0 0) false)
  end.

(** [func (c *Client) FindTemperatureByCity(ctx, city)] *)
Definition FindTemperatureByCity (rt : Runtime) (c : Client) (city : string)
  : prog (result WeatherApiResponse) :=
  traced "FindTemperatureByCity"
    (call (SpanSetAttributes [("city.name", AttrString city)]) ;;
     match url_Parse rt (baseURL c) with
     | Err err =>
         call (SpanRecordError err) ;;
         call (LoggerPrintf ("Invalid base URL: " ++ Error err)) ;;
         Ret (Err ErrInternal)
     | Ok baseURL =>
         let baseURL := url.setPath baseURL (url.Path baseURL ++ "/current.json") in
         let params := [] in
         let params := url.Values_Add params "key" (apiKey c) in
         let params := url.Values_Add params "q" city in
         let baseURL := url.setRawQuery baseURL (url.Values_Encode params) in
         let fullURL := URL_String rt baseURL in
         match NewRequestWithContext rt "GET" fullURL with
         | Err err =>
             call (SpanRecordError err) ;;
             Ret (Err err)
         | Ok req =>
             r <- http_Client_Do (httpClient c) req ;;
             match r with
             | Err err =>
                 call (SpanRecordError err) ;;
                 call (LoggerPrintf
                         ("Error requesting from WeatherAPI: " ++ Error err)) ;;
                 Ret (Err ErrInternal)
             | Ok resp =>
                 if negb (http.StatusCode resp =? http.StatusOK)%Z then
                   call (SpanAddEvent "WeatherAPI returned non-OK status") ;;
                   Ret (Err ErrCityNotFound)
                 else
                   match Decode rt (http.ResponseBody resp) with
                   | Err err =>
                       call (SpanRecordError err) ;;
                       call (LoggerPrintf
                               ("Error decoding WeatherAPI response: "
                                ++ Error err)) ;;
                       Ret (Err ErrInternal)
                   | Ok data => Ret (Ok data)
                   end
             end
         end
     end).

End weatherapi.

(* ================================================================= *)
(** ** Service app2: the Orchestrator *)

Module app2.

Definition InternalErrorMessage : string :=
  "ocorreu um erro ao processar sua requisição".

(** The two collaborators, behind their interfaces. *)
Record application : Type := mkApplication {
  viaCepClient : string -> prog (result ViaCepResponse);
  weatherApiClient : string -> prog (result WeatherApiResponse)
}.

(** The application as [main] builds it. *)
Definition main_app (rt : Runtime) (weatherAPIKey : string) : application :=
  mkApplication
    (viacep.FindAddressByCep rt viacep.NewClient)
    (weatherapi.FindTemperatureByCity rt (weatherapi.NewClient rt weatherAPIKey)).

(** The application with nothing but the interfaces behind it: whatever
    implements them is part of the world. *)
Definition seams : application :=
  mkApplication
    (fun cep => call (ViaCepClient cep))
    (fun city => call (WeatherApiClient city)).

Record response : Type := mkresponse {
  City : string;     (* json:"city" *)
  TempC : float;     (* json:"temp_C" *)
  TempF : float;     (* json:"temp_F" *)
  TempK : float      (* json:"temp_K" *)
}.

(** The document [json.Marshal] makes of a [response]. *)
Definition Marshal (r : response) : option json.Value :=
  match json.ofFloat64 (TempC r), json.ofFloat64 (TempF r),
        json.ofFloat64 (TempK r) with
  | Some c, Some f, Some k =>
      Some (json.JObject
              [("city", json.JString (City r));
               ("temp_C", c); ("temp_F", f); ("temp_K", k)])
  | _, _, _ => None
  end.

(** [w.Header().Set("Content-Type", "application/json")] followed by
    [json.NewEncoder(w).Encode(response)]: the first write sends status 200;
    when the encoder fails nothing is written and the server sends an empty
    200. *)
Definition writeJSON (r : response) : http.Response :=
  http.mkResponse http.StatusOK [("Content-Type", "application/json")]
    match Marshal r with
    | Some v => http.Document v
    | None => http.Plain ""
    end.

(** [err == viacep.ErrCepNotFound] *)
Definition isErrCepNotFound (err : error) : bool :=
  match err with
  | viacep_ErrCepNotFound => true
  | _ => false
  end.

(** [func (app *application) handler(w, r)] *)
Definition handler (app : application) (r : http.Request) : prog http.Response :=
  traced "/get-weather-by-cep"
    (let cep := url.Values_Get (url.URL_Query (http.URL r)) "cep" in
     if String.eqb cep "" then
       Ret (http.Error "parâmetro 'cep' é obrigatório" http.StatusBadRequest)
     else if negb (regexp.MatchString cepRegex cep) then
       Ret (http.Error "inválid zipcode" http.StatusUnprocessableEntity)
     else
       (* 1. *)
       a <- viaCepClient app cep ;;
       match a with
       | Err err =>
           if isErrCepNotFound err then
             Ret (http.Error (Error viacep.ErrCepNotFound) http.StatusNotFound)
           else
             call (LoggerPrintf ("Error can not find CEP: " ++ Error err)) ;;
             Ret (http.Error InternalErrorMessage
                    http.StatusInternalServerError)
       | Ok address =>
           (* 2. *)
           w <- weatherApiClient app (viacep_types.City address) ;;
           match w with
           | Err err =>
               call (LoggerPrintf
                       ("Internal error while fetching temperature for the city "
                        ++ viacep_types.City address ++ ": " ++ Error err)) ;;
               Ret (http.Error InternalErrorMessage
                      http.StatusInternalServerError)
           | Ok weather =>
               (* 3. *)
               let current := weatherapi_types.Current weather in
               let response :=
                 mkresponse
                   (viacep_types.City address)
                   (weatherapi_types.TempC current)
                   (weatherapi_types.TempF current)
                   (weatherapi_types.TempC current + 273.15)%float in
               Ret (writeJSON response)
           end
       end).

End app2.

(* ================================================================= *)
(** ** Service app1: the Edge *)

Module app1.

Record application : Type := mkApplication {
  httpClient : http_Client
}.

Record Request : Type := mkRequest {
  Cep : string       (* json:"cep" *)
}.

Record Response : Type := mkResponse {
  City : string;     (* json:"city" *)
  TempC : float;     (* json:"temp_C" *)
  TempF : float;     (* json:"temp_F" *)
  TempK : float      (* json:"temp_K" *)
}.

Fixpoint logHeaders (h : list (string * string)) : prog unit :=
  match h with
  | [] => Ret tt
  | (name, value) :: rest =>
      call (LoggerPrintf ("Header: " ++ name ++ ": " ++ value)) ;;
      logHeaders rest
  end.

(** [func (l *loggingRoundTripper) RoundTrip(r)], for a round tripper whose
    [next] is [next]. *)
Definition loggingRoundTripper_RoundTrip (next : RoundTripper) : RoundTripper :=
  fun r =>
    call (LoggerPrintf "------- Headers send -------") ;;
    logHeaders (http.Header r) ;;
    call (LoggerPrintf "-----------------------------") ;;
    next r.

(** The application as [main] builds it. *)
Definition main_app : application :=
  let baseTransport := http_DefaultTransport in
  let loggingTransport := loggingRoundTripper_RoundTrip baseTransport in
  let otelTransport := otelhttp_NewTransport loggingTransport in
  mkApplication (mkHttpClient otelTransport 10).

Definition assignRequest (n : string) (v : json.Value) (d : Request)
  : result Request :=
  match json.intoString "Request.cep" v (Cep d) with
  | Ok x => Ok (mkRequest x)
  | Err e => Err e
  end.

(** [json.NewDecoder(r.Body).Decode(&req)] for [req := Request{}] *)
Definition DecodeRequest (rt : Runtime) (b : http.body) : result Request :=
  match readDocument rt b with
  | Err e => Err e
  | Ok v =>
      json.intoStruct (json_equalFold rt) ["cep"] assignRequest
        "main.Request" v (mkRequest "")
  end.

Definition fieldNames : list string := ["city"; "temp_C"; "temp_F"; "temp_K"].

Definition assignResponse (n : string) (v : json.Value) (d : Response)
  : result Response :=
  if String.eqb n "city" then
    match json.intoString "Response.city" v (City d) with
    | Ok x => Ok (mkResponse x (TempC d) (TempF d) (TempK d))
    | Err e => Err e
    end
  else if String.eqb n "temp_C" then
    match json.intoFloat64 "Response.temp_C" v (TempC d) with
    | Ok x => Ok (mkResponse (City d) x (TempF d) (TempK d))
    | Err e => Err e
    end
  else if String.eqb n "temp_F" then
    match json.intoFloat64 "Response.temp_F" v (TempF d) with
    | Ok x => Ok (mkResponse (City d) (TempC d) x (TempK d))
    | Err e => Err e
    end
  else
    match json.intoFloat64 "Response.temp_K" v (TempK d) with
    | Ok x => Ok (mkResponse (City d) (TempC d) (TempF d) x)
    | Err e => Err e
    end.

(** [json.NewDecoder(response.Body).Decode(&resp)] for [resp := Response{}] *)
Definition DecodeResponse (rt : Runtime) (b : http.body) : result Response :=
  match readDocument rt b with
  | Err e => Err e
  | Ok v =>
      json.intoStruct (json_equalFold rt) fieldNames assignResponse
        "main.Response" v (mkResponse "" 0 0 0)
  end.

(** The document [json.Marshal] makes of a [Response]. *)
Definition Marshal (r : Response) : option json.Value :=
  match json.ofFloat64 (TempC r), json.ofFloat64 (TempF r),
        json.ofFloat64 (TempK r) with
  | Some c, Some f, Some k =>
      Some (json.JObject
              [("city", json.JString (City r));
               ("temp_C", c); ("temp_F", f); ("temp_K", k)])
  | _, _, _ => None
  end.

(** [w.Header().Set("Content-Type", "application/json")],
    [w.WriteHeader(http.StatusOK)], [json.NewEncoder(w).Encode(resp)] *)
Definition writeJSON (r : Response) : http.Response :=
  http.mkResponse http.StatusOK [("Content-Type", "application/json")]
    match Marshal r with
    | Some v => http.Document v
    | None => http.Plain ""
    end.

(** [func (app *application) handler(w, r)] *)
Definition handler (rt : Runtime) (app : application) (r : http.Request)
  : prog http.Response :=
  traced "/weather-by-cep"
    ((* 1. Validação *)
     match DecodeRequest rt (http.Body r) with
     | Err err => Ret (http.Error (Error err) http.StatusBadRequest)
     | Ok req =>
         if String.eqb (Cep req) "" then
           Ret (http.Error "param 'cep' is required" http.StatusBadRequest)
         else if negb (regexp.MatchString cepRegex (Cep req)) then
           Ret (http.Error "invalid zipcode" http.StatusUnprocessableEntity)
         else
           (* 2. Processamento *)
           base <- call (Getenv "APP2_BASE_URL") ;;
           let app2Endpoint := base ++ "/get-weather-by-cep?cep=" ++ Cep req in
           match NewRequestWithContext rt "GET" app2Endpoint with
           | Err err =>
               call (SpanRecordError err) ;;
               Ret (http.Error "fail create request to orchestrator service"
                      http.StatusInternalServerError)
           | Ok reqApp2 =>
               r <- http_Client_Do (httpClient app) reqApp2 ;;
               match r with
               | Err err =>
                   call (SpanRecordError err) ;;
                   Ret (http.Error (Error err) http.StatusInternalServerError)
               | Ok response =>
                   if (http.StatusCode response =? http.StatusNotFound)%Z then
                     Ret (http.Error "can not find zipcode" http.StatusNotFound)
                   else if (http.StatusCode response >=? http.StatusBadRequest)%Z
                   then
                     Ret (http.Error
                            "error on find weather in orchestrator service"
                            (http.StatusCode response))
                   else
                     (* 3. Resultado *)
                     match DecodeResponse rt (http.ResponseBody response) with
                     | Err err =>
                         call (SpanRecordError err) ;;
                         Ret (http.Error (Error err)
                                http.StatusInternalServerError)
                     | Ok resp => Ret (writeJSON resp)
                     end
               end
           end
     end).

End app1.

(* ================================================================= *)
(** ** Stand-ins for examples

    A runtime and worlds to run the programs on concrete inputs, in the manner
    of the [httptest] servers and the mock logger of the repository's tests. *)

Module stub.

(** Reads [scheme://host/path?query]. *)
Definition Parse (s : string) : result url.URL :=
  let (scheme, rest) := url.cut ":" s in
  match rest with
  | String "/" (String "/" rest') =>
      let (hostpath, query) := url.cut "?" rest' in
      let (host, path) := url.cut "/" hostpath in
      Ok (url.mkURL scheme host
            (if url.contains "/" hostpath then String "/" path else "")
            query "")
  | _ => Err (ErrLibrary "parse: missing protocol scheme")
  end.

Definition String_ (u : url.URL) : string :=
  url.Scheme u ++ "://" ++ url.Host u ++ url.Path u
  ++ (if String.eqb (url.RawQuery u) "" then "" else "?" ++ url.RawQuery u).

Definition lower (c : ascii) : ascii :=
  if regexp.inRange "A" "Z" c then ascii_of_N (N_of_ascii c + 32) else c.

Fixpoint lowerString (s : string) : string :=
  match s with
  | EmptyString => EmptyString
  | String c rest => String (lower c) (lowerString rest)
  end.

Definition runtime : Runtime :=
  Build_Runtime Parse String_
    (fun _ => Err (ErrLibrary "invalid character looking for beginning of value"))
    (fun name key => String.eqb (lowerString name) (lowerString key)).

(** A world without state whose answers are given call by call. *)
Definition scripted
  (env : string -> string)
  (net : http.Request -> result http.Response)
  (address : string -> result ViaCepResponse)
  (weather : string -> result WeatherApiResponse) : world unit :=
  fun c w =>
    match c return ans c * unit with
    | Getenv key => (env key, w)
    | DefaultTransport req => (net req, w)
    | ViaCepClient cep => (address cep, w)
    | WeatherApiClient city => (weather city, w)
    | TracerStart _ => (tt, w)
    | SpanSetAttributes _ => (tt, w)
    | SpanRecordError _ => (tt, w)
    | SpanAddEvent _ => (tt, w)
    | SpanEnd => (tt, w)
    | LoggerPrintf _ => (tt, w)
    end.

Definition noEnv : string -> string := fun _ => "".
Definition noNet : http.Request -> result http.Response :=
  fun _ => Err (ErrLibrary "dial tcp: connection refused").
Definition noAddress : string -> result ViaCepResponse :=
  fun _ => Err viacep.ErrInternal.
Definition noWeather : string -> result WeatherApiResponse :=
  fun _ => Err weatherapi.ErrInternal.

(** A network that answers every request alike. *)
Definition replies (status : Z) (b : http.body)
  : http.Request -> result http.Response :=
  fun _ => Ok (http.mkResponse status [] b).

(** A request with the given query string, as a server hands it to the
    Orchestrator's handler. *)
Definition get (rawQuery : string) : http.Request :=
  http.mkRequest "GET" (url.mkURL "" "" "/get-weather-by-cep" rawQuery "") []
    (http.Plain "").

(** A request with the given body, as a server hands it to the Edge's
    handler. *)
Definition post (b : http.body) : http.Request :=
  http.mkRequest "POST" (url.mkURL "" "" "/weather-by-cep" "" "") [] b.

Definition cepBody (cep : string) : http.body :=
  http.Document (json.JObject [("cep", json.JString cep)]).

(** The upstream's usual answer for an unknown code: 200 with [erro] set. *)
Definition erroTrue : http.Response :=
  http.mkResponse 200 []
    (http.Document (json.JObject [("erro", json.JBool true)])).

(** A 201 with a payload that decodes and whose [erro] is not set. *)
Definition created : http.Response :=
  http.mkResponse 201 []
    (http.Document
       (json.JObject [("cep", json.JString "01001-000");
                      ("localidade", json.JString "Sampa");
                      ("erro", json.JBool false)])).

(** The payload of the package's own test, answered with 200. *)
Definition found : http.Response :=
  http.mkResponse 200 []
    (http.Document
       (json.JObject [("cep", json.JString "01001-000");
                      ("localidade", json.JString "Sampa")])).

(** A 200 whose payload has temperatures and [erro] set. *)
Definition sunnyErro : http.Response :=
  http.mkResponse 200 []
    (http.Document
       (json.JObject
          [("current",
            json.JObject [("temp_c", json.JNumber 25.5);
                          ("temp_f", json.JNumber 77.9)]);
           ("erro", json.JBool true)])).

(** The payload of the weather API for 25.5 degrees Celsius. *)
Definition sunny : http.Response :=
  http.mkResponse 200 []
    (http.Document
       (json.JObject
          [("current",
            json.JObject [("temp_c", json.JNumber 25.5);
                          ("temp_f", json.JNumber 77.9)])])).

(** The payload of the address API for [01001-000]. *)
Definition saoPaulo : http.Response :=
  http.mkResponse 200 []
    (http.Document
       (json.JObject [("cep", json.JString "01001-000");
                      ("logradouro", json.JString "Praça da Sé");
                      ("localidade", json.JString "São Paulo");
                      ("uf", json.JString "SP")])).

(** A network with the two upstream APIs behind it, told apart by host. *)
Definition upstreams (address weather : http.Response)
  : http.Request -> result http.Response :=
  fun req =>
    if String.eqb (url.Host (http.URL req)) "viacep.com.br" then Ok address
    else Ok weather.

(** A network with the Orchestrator behind it, built as its [main] builds
    it and itself facing the network [net]. *)
Definition orchestrator (net : http.Request -> result http.Response)
  : http.Request -> result http.Response :=
  fun req =>
    Ok (value (run (scripted noEnv net noAddress noWeather)
                 (app2.handler (app2.main_app runtime "SECRET") req) tt)).

(** The Edge, built as its [main] builds it, in front of that Orchestrator. *)
Definition edge (net : http.Request -> result http.Response) (cep : string)
  : http.Response :=
  value (run (scripted (fun _ => "http://app2:8080") (orchestrator net)
                noAddress noWeather)
           (app1.handler runtime app1.main_app (post (cepBody cep))) tt).

End stub.

(* ================================================================= *)
(** ** Reading traces *)

(** The calls of a trace, without their answers. *)
Definition calls (t : list event) : list cmd := map fst t.

(** The calls of a trace that cross the Orchestrator's two interfaces. *)
Definition isResolverCall (e : event) : bool :=
  match fst e with
  | ViaCepClient _ | WeatherApiClient _ => true
  | _ => false
  end.

Definition resolverCalls (t : list event) : list event :=
  filter isResolverCall t.

(** Every attribute a trace sets on a span, in order. *)
Definition attributesOf (e : event) : list KeyValue :=
  match fst e with
  | SpanSetAttributes kvs => kvs
  | _ => []
  end.

Definition attributes (t : list event) : list KeyValue :=
  flat_map attributesOf t.

(** The postal code format in words: five decimal digits, a hyphen, three
    decimal digits, and nothing else. *)
Definition digit (c : ascii) : Prop :=
  (48 <= N_of_ascii c <= 57)%N.

Definition cep_format (s : string) : Prop :=
  exists d1 d2 : list ascii,
    list_ascii_of_string s = (d1 ++ ["-"%char] ++ d2)%list
    /\ length d1 = 5 /\ length d2 = 3
    /\ Forall digit d1 /\ Forall digit d2.

(** What [QueryEscape] writes for one byte. *)
Definition escapeByte (c : ascii) : string := url.QueryEscape (String c "").

(** A [key=value] piece as [Encode] writes it. *)
Definition piece (k v : string) : string :=
  url.QueryEscape k ++ String "=" (url.QueryEscape v).

(** The query string of the Weather Resolver's request:
    [params.Encode()] for [key] and [q]. *)
Definition credentialQuery (key city : string) : string :=
  url.Values_Encode [("key", [key]); ("q", [city])].

(** The two URL attributes the redacting transport sets for a request to
    [target] about [city].  The credential is no argument of it. *)
Definition redactedAttributes (rt : Runtime) (target : url.URL) (city : string)
  : list KeyValue :=
  let masked :=
    URL_String rt (url.setRawQuery target (credentialQuery "***" city)) in
  [(semconv_HTTPURLKey, AttrString masked);
   (semconv_URLFullKey, AttrString masked)].

(** HTTP status classes. *)
Definition is2xx (status : Z) : Prop := (200 <= status < 300)%Z.

(** [|x - y| <= eps] on [float64]. *)
Definition within (eps x y : float) : bool :=
  PrimFloat.leb (PrimFloat.abs (x - y)) eps.

(* ================================================================= *)
(** ** More ways of reading traces, and the access log *)

(** The calls of a trace that reach the network. *)
Definition isNetworkCall (e : event) : bool :=
  match fst e with
  | DefaultTransport _ => true
  | _ => false
  end.

Definition networkCalls (t : list event) : list event :=
  filter isNetworkCall t.

(** The lines a trace writes to the logger, in order. *)
Definition logLineOf (e : event) : list string :=
  match fst e with
  | LoggerPrintf line => [line]
  | _ => []
  end.

Definition logLines (t : list event) : list string :=
  flat_map logLineOf t.

(** The errors a trace records on a span, in order. *)
Definition recordedErrorOf (e : event) : list error :=
  match fst e with
  | SpanRecordError err => [err]
  | _ => []
  end.

Definition recordedErrors (t : list event) : list error :=
  flat_map recordedErrorOf t.

(** The status code attributes of the responses a trace receives. *)
Definition statusAttributeOf (e : event) : list KeyValue :=
  match e with
  | (DefaultTransport _, AResponse (Ok resp)) =>
      [(semconv_HTTPStatusCodeKey, AttrInt (http.StatusCode resp))]
  | _ => []
  end.

Definition statusAttributes (t : list event) : list KeyValue :=
  flat_map statusAttributeOf t.

(** The URL the Weather Resolver asks for. *)
Definition weatherURL (u : url.URL) (key city : string) : url.URL :=
  url.setRawQuery (url.setPath u (url.Path u ++ "/current.json"))
    (credentialQuery key city).

(** [m[key]]: all the values of [key]. *)
Fixpoint Values_lookup (v : url.Values) (key : string) : list string :=
  match v with
  | [] => []
  | (k, vs) :: rest =>
      if String.eqb k key then vs else Values_lookup rest key
  end.

(** The shape of a [url.Values] as this development keeps it: keys in
    strictly increasing order, and no key without a value. *)
Definition keyLt (a b : string * list string) : Prop :=
  String.ltb (fst a) (fst b) = true.

Definition wellFormed (v : url.Values) : Prop :=
  StronglySorted keyLt v /\ Forall (fun kv => snd kv <> []) v.

(** The [key=value] pieces [Encode] writes for a map, in order. *)
Definition pieces (v : url.Values) : list string :=
  flat_map
    (fun kv : string * list string => map (piece (fst kv)) (snd kv)) v.

(** [h.Get(key)] for a header whose names are in the canonical form the
    server stores them in: the first value under that name, or the empty
    string. *)
Definition Header_Get (h : list (string * string)) (key : string) : string :=
  match find (fun nv => String.eqb (fst nv) key) h with
  | Some nv => snd nv
  | None => ""
  end.

(** The double quote of a Go format string. *)
Definition quote : string := String (ascii_of_nat 34) EmptyString.

(** The access-log line both services write:
    [Request: IP=%s Method=%s URL=%s User-Agent=%s], the last one between
    double quotes, with
    [X-Forwarded-For] in preference to [r.RemoteAddr], [r.URL.RequestURI()]
    and [r.UserAgent()]. *)
Definition accessLine (requestURI : url.URL -> string) (remoteAddr : string)
    (r : http.Request) : string :=
  let ip := Header_Get (http.Header r) "X-Forwarded-For" in
  let ip := if String.eqb ip "" then remoteAddr else ip in
  "Request: IP=" ++ ip ++ " Method=" ++ http.Method r
  ++ " URL=" ++ requestURI (http.URL r)
  ++ " User-Agent=" ++ quote ++ Header_Get (http.Header r) "User-Agent"
  ++ quote.

(** [func (app *application) logRequest(next http.Handler) http.Handler] of
    app1, applied to a request that came from [remoteAddr]. *)
Definition app1_logRequest (requestURI : url.URL -> string)
    (next : http.Request -> prog http.Response)
    (remoteAddr : string) (r : http.Request) : prog http.Response :=
  call (LoggerPrintf (accessLine requestURI remoteAddr r)) ;;
  next r.

(** The same of app2, which first writes every header it received. *)
Definition app2_logRequest (requestURI : url.URL -> string)
    (next : http.Request -> prog http.Response)
    (remoteAddr : string) (r : http.Request) : prog http.Response :=
  call (LoggerPrintf "--- Headers Recebidos ---") ;;
  app1.logHeaders (http.Header r) ;;
  call (LoggerPrintf "-------------------------") ;;
  call (LoggerPrintf (accessLine requestURI remoteAddr r)) ;;
  next r.

(** The trace of writing one line, and of writing a list of headers. *)
Definition logged (line : string) : event := (LoggerPrintf line, AUnit).

Definition headerLine (nv : string * string) : string :=
  "Header: " ++ fst nv ++ ": " ++ snd nv.

(* ################################################################# *)
(** * Properties *)

Unset Implicit Arguments.

(* ================================================================= *)
(** ** Running programs *)

Lemma run_bind {W A B} (env : world W) (p : prog A) (f : A -> prog B) w :
  run env (bind p f) w =
  let o := run env p w in
  let o' := run env (f (value o)) (final o) in
  mkOutcome (value o') (trace o ++ trace o')%list (final o').
Proof.
  revert w. induction p as [a|c k IH]; intros w; simpl.
  - destruct (run env (f a) w); reflexivity.
  - destruct (env c w) as [x w']. rewrite IH. reflexivity.
Qed.

(** Takes the answer of the world to the next call of the run in the goal. *)
Ltac ask :=
  match goal with
  | |- context [?env ?c ?w] =>
      match type of env with world _ => idtac end;
      let x := fresh "x" in
      let w' := fresh "w" in
      destruct (env c w) as [x w'] eqn:?; cbn in x
  end.

(** Splits a hypothesis of membership in an explicit trace into its cases and
    drops the entries that are other calls. *)
Ltac which H :=
  simpl In in H;
  repeat match type of H with
         | _ \/ _ => destruct H as [H | H]
         end;
  try contradiction; try discriminate H.

(** Splits the run in the goal on the next thing the program branches on. *)
Ltac fork :=
  match goal with
  | |- context [run _ (match NewRequestWithContext ?rt ?m ?s with _ => _ end) _] =>
      unfold NewRequestWithContext; destruct (url_Parse rt s) eqn:?
  | |- context [run _ (bind (match NewRequestWithContext ?rt ?m ?s with _ => _ end) _) _] =>
      unfold NewRequestWithContext; destruct (url_Parse rt s) eqn:?
  | |- context [run _ (match ?x with _ => _ end) _] => destruct x eqn:?
  | |- context [run _ (if ?x then _ else _) _] => destruct x eqn:?
  | |- context [run _ (bind (match ?x with _ => _ end) _) _] => destruct x eqn:?
  | |- context [run _ (bind (if ?x then _ else _) _) _] => destruct x eqn:?
  | |- context [bind (match ?x with _ => _ end) _] => destruct x eqn:?
  | |- context [bind (if ?x then _ else _) _] => destruct x eqn:?
  end.

(** Turns the boolean tests on status codes among the hypotheses into
    arithmetic. *)
Ltac status_facts :=
  unfold is2xx, http.StatusOK, http.StatusNotFound, http.StatusBadRequest in *;
  repeat match goal with
         | Hb : negb _ = true |- _ => apply negb_true_iff in Hb
         | Hb : negb _ = false |- _ => apply negb_false_iff in Hb
         | Hb : (_ =? _)%Z = true |- _ => apply Z.eqb_eq in Hb
         | Hb : (_ =? _)%Z = false |- _ => apply Z.eqb_neq in Hb
         | Hb : (_ >=? _)%Z = _ |- _ => rewrite Z.geb_leb in Hb
         | Hb : (_ <=? _)%Z = true |- _ => apply Z.leb_le in Hb
         | Hb : (_ <=? _)%Z = false |- _ => apply Z.leb_gt in Hb
         end.

(** Follows the run in the goal along every path of the program. *)
Ltac steps :=
  repeat (cbn [run bind call traced value trace final fst snd app
               app1.logHeaders http.Header];
          first [ask | fork]).

Ltac finish :=
  cbn [run bind call traced value trace final fst snd app calls map].

(* ================================================================= *)
(** ** The pattern of the postal code *)

Lemma inRange_digit c : regexp.inRange "0" "9" c = true <-> digit c.
Proof.
  unfold regexp.inRange, digit. simpl.
  rewrite andb_true_iff, !N.leb_le. tauto.
Qed.

(** [^] never holds past the first byte: a search that starts later fails. *)
Lemma search_not_bot s : regexp.search cepRegex false s = false.
Proof.
  induction s as [|a s IH]; simpl; auto.
Qed.

Lemma MatchString_at_start s :
  regexp.MatchString cepRegex s = regexp.matchesAt cepRegex (true, s).
Proof.
  unfold regexp.MatchString.
  destruct s as [|a s]; [reflexivity|].
  change (regexp.search cepRegex true (String a s))
    with (regexp.matchesAt cepRegex (true, String a s)
          || regexp.search cepRegex false s).
  rewrite search_not_bot. apply orb_false_r.
Qed.

Ltac eat_digit s H :=
  let a := fresh "a" in
  let Ha := fresh "Ha" in
  destruct s as [|a s]; [discriminate H|];
  cbn -[regexp.inRange] in H;
  destruct (regexp.inRange "0" "9" a) eqn:Ha; [|discriminate H];
  cbn -[regexp.inRange] in H; apply inRange_digit in Ha.

Lemma MatchString_format s :
  regexp.MatchString cepRegex s = true -> cep_format s.
Proof.
  rewrite MatchString_at_start. unfold regexp.matchesAt, cepRegex.
  cbn -[regexp.inRange]. intros H.
  do 5 eat_digit s H.
  destruct s as [|h s]; [discriminate H|].
  cbn -[regexp.inRange] in H.
  destruct (Ascii.eqb h "-") eqn:Hh; [|discriminate H].
  apply Ascii.eqb_eq in Hh. subst h.
  cbn -[regexp.inRange] in H.
  do 3 eat_digit s H.
  destruct s; [|discriminate H].
  exists [a; a0; a1; a2; a3], [a4; a5; a6].
  split; [reflexivity|]. split; [reflexivity|]. split; [reflexivity|].
  split; repeat (apply Forall_cons; [assumption|]); apply Forall_nil.
Qed.

Lemma format_MatchString s :
  cep_format s -> regexp.MatchString cepRegex s = true.
Proof.
  intros (d1 & d2 & Hs & H1 & H2 & F1 & F2).
  rewrite MatchString_at_start.
  rewrite <- (string_of_list_ascii_of_string s), Hs.
  do 6 (destruct d1 as [|? d1]; try discriminate H1).
  do 4 (destruct d2 as [|? d2]; try discriminate H2).
  repeat match goal with
         | H : Forall _ (_ :: _) |- _ => inversion H; subst; clear H
         end.
  repeat match goal with
         | H : digit _ |- _ => apply inRange_digit in H
         end.
  unfold regexp.matchesAt, cepRegex. cbn -[regexp.inRange].
  repeat match goal with
         | H : regexp.inRange _ _ _ = true |- _ =>
             rewrite H; clear H; cbn -[regexp.inRange]
         end.
  reflexivity.
Qed.

(** The compiled pattern accepts exactly the strings of the format. *)
Lemma MatchString_iff s :
  regexp.MatchString cepRegex s = true <-> cep_format s.
Proof.
  split; [apply MatchString_format | apply format_MatchString].
Qed.

Lemma MatchString_false s :
  regexp.MatchString cepRegex s = false <-> ~ cep_format s.
Proof.
  rewrite <- MatchString_iff. destruct (regexp.MatchString cepRegex s).
  - split; [discriminate | intros H; elim H; reflexivity].
  - split; [discriminate | reflexivity].
Qed.

Lemma empty_not_cep : ~ cep_format "".
Proof.
  apply MatchString_false. reflexivity.
Qed.

(* ================================================================= *)
(** ** Validation (both services) *)

Lemma edge_validation (rt : Runtime) W (env : world W) (w : W)
    (r : http.Request) (req : app1.Request) :
  app1.DecodeRequest rt (http.Body r) = Ok req ->
  let o := run env (app1.handler rt app1.main_app r) w in
  (app1.Cep req = "" ->
     value o = http.Error "param 'cep' is required" http.StatusBadRequest)
  /\ (app1.Cep req <> "" -> ~ cep_format (app1.Cep req) ->
      value o = http.Error "invalid zipcode" http.StatusUnprocessableEntity)
  /\ (cep_format (app1.Cep req) <->
      In (Getenv "APP2_BASE_URL") (calls (trace o))).
Proof.
  intros Hdec o. subst o. unfold app1.handler. rewrite Hdec.
  unfold app1.main_app, http_Client_Do, otelhttp_NewTransport,
    app1.loggingRoundTripper_RoundTrip, http_DefaultTransport.
  cbn [app1.httpClient Transport].
  destruct (String.eqb (app1.Cep req) "") eqn:He.
  - apply String.eqb_eq in He. steps. finish.
    split; [reflexivity|]. split; [congruence|]. rewrite He.
    split; [intros H; elim (empty_not_cep H) | simpl; intuition discriminate].
  - apply String.eqb_neq in He.
    destruct (regexp.MatchString cepRegex (app1.Cep req)) eqn:Hm; cbn [negb].
    + apply MatchString_iff in Hm.
      steps; finish;
        (split; [tauto|]; split; [tauto|];
         split; [intros; simpl; tauto | tauto]).
    + apply MatchString_false in Hm. steps. finish.
      split; [tauto|]. split; [reflexivity|].
      split; [tauto | simpl; intuition discriminate].
Qed.

Lemma orchestrator_validation W (env : world W) (w : W) (r : http.Request) :
  let cep := url.Values_Get (url.URL_Query (http.URL r)) "cep" in
  let o := run env (app2.handler app2.seams r) w in
  (cep = "" ->
     value o = http.Error "parâmetro 'cep' é obrigatório" http.StatusBadRequest)
  /\ (cep <> "" -> ~ cep_format cep ->
      value o = http.Error "inválid zipcode" http.StatusUnprocessableEntity)
  /\ (cep_format cep <-> In (ViaCepClient cep) (calls (trace o))).
Proof.
  intros cep o. subst o. unfold app2.handler, app2.seams.
  cbn [app2.viaCepClient app2.weatherApiClient]. fold cep.
  destruct (String.eqb cep "") eqn:He.
  - apply String.eqb_eq in He. steps. finish.
    split; [reflexivity|]. split; [congruence|]. rewrite He.
    split; [intros H; elim (empty_not_cep H) | simpl; intuition discriminate].
  - apply String.eqb_neq in He.
    destruct (regexp.MatchString cepRegex cep) eqn:Hm; cbn [negb].
    + apply MatchString_iff in Hm.
      steps; finish;
        (split; [tauto|]; split; [tauto|];
         split; [intros; simpl; tauto | tauto]).
    + apply MatchString_false in Hm. steps. finish.
      split; [tauto|]. split; [reflexivity|].
      split; [tauto | simpl; intuition discriminate].
Qed.

(** C1.  In both services validation answers an empty postal code with 400
    (bad request) and a postal code that is not empty and not of the form
    [^[0-9]{5}-[0-9]{3}$] with 422 (unprocessable entity); a postal code passes
    validation, that is the handler goes on to its first call of the
    processing stage (the Edge reads [APP2_BASE_URL], the Orchestrator calls
    the Address Resolver with that code), exactly when it is of that form.
    The Edge takes the code from the [cep] member of the JSON body, the
    Orchestrator from the [cep] query parameter. *)
Theorem validation_classes (rt : Runtime) W (env : world W) (w : W)
    (r : http.Request) :
  (forall req : app1.Request,
     app1.DecodeRequest rt (http.Body r) = Ok req ->
     let o := run env (app1.handler rt app1.main_app r) w in
     (app1.Cep req = "" ->
        value o = http.Error "param 'cep' is required" http.StatusBadRequest)
     /\ (app1.Cep req <> "" -> ~ cep_format (app1.Cep req) ->
         value o = http.Error "invalid zipcode" http.StatusUnprocessableEntity)
     /\ (cep_format (app1.Cep req) <->
         In (Getenv "APP2_BASE_URL") (calls (trace o))))
  /\ (let cep := url.Values_Get (url.URL_Query (http.URL r)) "cep" in
      let o := run env (app2.handler app2.seams r) w in
      (cep = "" ->
         value o = http.Error "parâmetro 'cep' é obrigatório"
                     http.StatusBadRequest)
      /\ (cep <> "" -> ~ cep_format cep ->
          value o = http.Error "inválid zipcode"
                      http.StatusUnprocessableEntity)
      /\ (cep_format cep <-> In (ViaCepClient cep) (calls (trace o))))
  /\ http.StatusBadRequest <> http.StatusUnprocessableEntity.
Proof.
  split; [|split].
  - intros req Hdec. exact (edge_validation rt W env w r req Hdec).
  - exact (orchestrator_validation W env w r).
  - discriminate.
Qed.

(** A body whose code lacks a digit is answered with 422 by the Edge. *)
Lemma validation_classes_witness :
  value (run (stub.scripted stub.noEnv stub.noNet stub.noAddress stub.noWeather)
           (app1.handler stub.runtime app1.main_app
              (stub.post (stub.cepBody "1234-567")))
           tt)
  = http.Error "invalid zipcode" http.StatusUnprocessableEntity.
Proof.
  refine (proj1 (proj2 (proj1
            (validation_classes stub.runtime unit
               (stub.scripted stub.noEnv stub.noNet stub.noAddress
                  stub.noWeather)
               tt (stub.post (stub.cepBody "1234-567")))
            (app1.mkRequest "1234-567") eq_refl)) _ _).
  - discriminate.
  - apply MatchString_false. reflexivity.
Defined.

(* ================================================================= *)
(** ** The Orchestrator's handler *)

(** C3.  In the Orchestrator's handler an Address Resolver error that is
    [ErrCepNotFound] gives the 404 response; any other Address Resolver error
    (its [ErrInternal] among them) and any Weather Resolver error at all (its
    [ErrCityNotFound] among them) give the 500 response whose body is the
    fixed [InternalErrorMessage]: the response does not depend on the error,
    and the texts of the resolvers' own errors differ from that message. *)
Theorem orchestrator_error_translation W (env : world W) (w : W)
    (r : http.Request) :
  let o := run env (app2.handler app2.seams r) w in
  (forall cep,
     In (ViaCepClient cep, AAddress (Err viacep.ErrCepNotFound)) (trace o) ->
     value o = http.Error (Error viacep.ErrCepNotFound) http.StatusNotFound)
  /\ (forall cep err,
        In (ViaCepClient cep, AAddress (Err err)) (trace o) ->
        err <> viacep.ErrCepNotFound ->
        value o = http.Error app2.InternalErrorMessage
                    http.StatusInternalServerError)
  /\ (forall city err,
        In (WeatherApiClient city, AWeather (Err err)) (trace o) ->
        value o = http.Error app2.InternalErrorMessage
                    http.StatusInternalServerError)
  /\ Forall (fun err => Error err <> app2.InternalErrorMessage)
       [viacep.ErrInternal; weatherapi.ErrCityNotFound; weatherapi.ErrInternal].
Proof.
  intros o. subst o. unfold app2.handler, app2.seams.
  cbn [app2.viaCepClient app2.weatherApiClient].
  assert (Forall (fun err => Error err <> app2.InternalErrorMessage)
            [viacep.ErrInternal; weatherapi.ErrCityNotFound;
             weatherapi.ErrInternal]) as Htexts
    by (repeat constructor; discriminate).
  steps; finish.
  all: split; [|split; [|split; [|exact Htexts]]]; intros.
  all: which H; inversion H; subst; try reflexivity; try discriminate.
  all: match goal with
       | Hc : app2.isErrCepNotFound ?e = true, N : ?e <> _ |- _ =>
           destruct e; try discriminate Hc; elim N; reflexivity
       end.
Qed.

(** The Weather Resolver's own not-stub.found error reaches the client as the
    generic 500. *)
Lemma orchestrator_error_translation_witness :
  value (run (stub.scripted stub.noEnv stub.noNet
                (fun _ => Ok (viacep_types.mkViaCepResponse
                                "01001-000" "" "Sampa" "SP" false))
                (fun _ => Err weatherapi.ErrCityNotFound))
           (app2.handler app2.seams (stub.get "cep=01001-000")) tt)
  = http.Error app2.InternalErrorMessage http.StatusInternalServerError.
Proof.
  refine (proj1 (proj2 (proj2
            (orchestrator_error_translation unit
               (stub.scripted stub.noEnv stub.noNet
                  (fun _ => Ok (viacep_types.mkViaCepResponse
                                  "01001-000" "" "Sampa" "SP" false))
                  (fun _ => Err weatherapi.ErrCityNotFound))
               tt (stub.get "cep=01001-000"))))
            "Sampa" weatherapi.ErrCityNotFound _).
  simpl. tauto.
Defined.

(** C9.  In every request to the Orchestrator the calls to the two resolvers
    are: none when validation rejects the postal code; the Address Resolver
    alone when it answers with an error; and otherwise the Address Resolver,
    answered with an address, followed by the Weather Resolver called with
    exactly the [City] of that address. *)
Theorem orchestrator_sequential W (env : world W) (w : W) (r : http.Request) :
  let cep := url.Values_Get (url.URL_Query (http.URL r)) "cep" in
  let o := run env (app2.handler app2.seams r) w in
  (~ cep_format cep -> resolverCalls (trace o) = [])
  /\ (forall c err,
        In (ViaCepClient c, AAddress (Err err)) (trace o) ->
        resolverCalls (trace o) = [(ViaCepClient cep, AAddress (Err err))])
  /\ (forall city a,
        In (WeatherApiClient city, a) (trace o) ->
        exists address,
          resolverCalls (trace o) =
            [(ViaCepClient cep, AAddress (Ok address));
             (WeatherApiClient (viacep_types.City address), a)]
          /\ city = viacep_types.City address
          /\ cep_format cep).
Proof.
  intros cep o. subst o. unfold app2.handler, app2.seams.
  cbn [app2.viaCepClient app2.weatherApiClient]. fold cep.
  destruct (String.eqb cep "") eqn:He.
  - apply String.eqb_eq in He. steps. finish.
    split; [reflexivity|]. split; intros; which H.
  - destruct (regexp.MatchString cepRegex cep) eqn:Hm; cbn [negb].
    + apply MatchString_iff in Hm. steps; finish.
      all: split; [tauto|]; split; intros.
      all: which H; inversion H; subst; try reflexivity.
      all: eexists; split; [reflexivity|]; split; [reflexivity|assumption].
    + apply MatchString_false in Hm. steps. finish.
      split; [reflexivity|]. split; intros; which H.
Qed.

(** No resolver is called for a postal code with a letter in it. *)
Lemma orchestrator_sequential_witness :
  resolverCalls
    (trace (run (stub.scripted stub.noEnv stub.noNet stub.noAddress
                   stub.noWeather)
              (app2.handler app2.seams (stub.get "cep=0100A-000")) tt))
  = [].
Proof.
  refine (proj1 (orchestrator_sequential unit
                   (stub.scripted stub.noEnv stub.noNet stub.noAddress
                      stub.noWeather)
                   tt (stub.get "cep=0100A-000")) _).
  apply MatchString_false. reflexivity.
Defined.

(** C5.  Every response of the Orchestrator with status 200 is the encoding
    of a [response] whose city is the resolved address's, whose Celsius and
    Fahrenheit fields are the resolved weather's, and whose Kelvin field is
    the Celsius field plus 273.15 in [float64]; for 25.5 degrees Celsius the
    Kelvin field is within 1e-9 of 298.65. *)
Theorem kelvin_is_celsius_plus_273_15 W (env : world W) (w : W)
    (r : http.Request) :
  let o := run env (app2.handler app2.seams r) w in
  http.StatusCode (value o) = http.StatusOK ->
  exists cep address weather x,
    In (ViaCepClient cep, AAddress (Ok address)) (trace o)
    /\ In (WeatherApiClient (viacep_types.City address), AWeather (Ok weather))
         (trace o)
    /\ value o = app2.writeJSON x
    /\ app2.City x = viacep_types.City address
    /\ app2.TempC x = weatherapi_types.TempC (weatherapi_types.Current weather)
    /\ app2.TempF x = weatherapi_types.TempF (weatherapi_types.Current weather)
    /\ app2.TempK x = (app2.TempC x + 273.15)%float
    /\ (app2.TempC x = 25.5%float -> within 1e-9 (app2.TempK x) 298.65 = true).
Proof.
  intros o. subst o. unfold app2.handler, app2.seams.
  cbn [app2.viaCepClient app2.weatherApiClient].
  steps; finish; cbn [http.Error http.StatusCode]; try discriminate.
  intros _. do 4 eexists.
  split; [simpl; eauto|]. split; [simpl; eauto|].
  split; [reflexivity|]. cbn [app2.City app2.TempC app2.TempF app2.TempK].
  repeat (split; [reflexivity|]).
  intros ->. reflexivity.
Qed.

(** Address [Sampa], 25.5 degrees Celsius: Kelvin within 1e-9 of 298.65. *)
Lemma kelvin_is_celsius_plus_273_15_witness :
  exists x : app2.response,
    value (run (stub.scripted stub.noEnv stub.noNet
                  (fun _ => Ok (viacep_types.mkViaCepResponse
                                  "01001-000" "" "Sampa" "SP" false))
                  (fun _ => Ok (weatherapi_types.mkWeatherApiResponse
                                  (weatherapi_types.mkCurrentWeather 25.5 77.9)
                                  false)))
             (app2.handler app2.seams (stub.get "cep=01001-000")) tt)
    = app2.writeJSON x
    /\ within 1e-9 (app2.TempK x) 298.65 = true.
Proof.
  destruct (kelvin_is_celsius_plus_273_15 unit
              (stub.scripted stub.noEnv stub.noNet
                 (fun _ => Ok (viacep_types.mkViaCepResponse
                                 "01001-000" "" "Sampa" "SP" false))
                 (fun _ => Ok (weatherapi_types.mkWeatherApiResponse
                                 (weatherapi_types.mkCurrentWeather 25.5 77.9)
                                 false)))
              tt (stub.get "cep=01001-000") eq_refl)
    as (cep & address & weather & x & _ & Hw & Hv & _ & HC & _ & _ & H25).
  exists x. split; [exact Hv|]. apply H25. rewrite HC.
  simpl in Hw. which Hw. inversion Hw. reflexivity.
Defined.

(* ================================================================= *)
(** ** The Edge's handler *)

(** C7.  When the Edge's call to the Orchestrator is answered, the request
    sent was made for a postal code that passed validation; a 404 answer
    becomes the Edge's own 404 [can not find zipcode]; any other answer with
    status 400 or more becomes the fixed upstream-error message under that
    same status; and when the call fails (transport error, timeout) the Edge
    answers with status 500 and the text of the error. *)
Theorem edge_status_translation (rt : Runtime) W (env : world W) (w : W)
    (r : http.Request) :
  let o := run env (app1.handler rt app1.main_app r) w in
  (forall req response,
     In (DefaultTransport req, AResponse (Ok response)) (trace o) ->
     (exists cep base,
        app1.DecodeRequest rt (http.Body r) = Ok (app1.mkRequest cep)
        /\ cep_format cep
        /\ NewRequestWithContext rt "GET"
             (base ++ "/get-weather-by-cep?cep=" ++ cep) = Ok req)
     /\ (http.StatusCode response = http.StatusNotFound ->
         value o = http.Error "can not find zipcode" http.StatusNotFound)
     /\ (http.StatusCode response <> http.StatusNotFound ->
         (http.StatusCode response >= http.StatusBadRequest)%Z ->
         value o = http.Error "error on find weather in orchestrator service"
                     (http.StatusCode response)))
  /\ (forall req err,
        In (DefaultTransport req, AResponse (Err err)) (trace o) ->
        value o = http.Error (Error err) http.StatusInternalServerError).
Proof.
  intros o. subst o. unfold app1.handler.
  unfold app1.main_app, http_Client_Do, otelhttp_NewTransport,
    app1.loggingRoundTripper_RoundTrip, http_DefaultTransport.
  cbn [app1.httpClient Transport].
  steps; finish.
  all: split; intros.
  all: which H; inversion H; subst; try reflexivity.
  all: split;
    [ exists (app1.Cep v), x0; destruct v as [cep]; cbn [app1.Cep] in *;
      split; [reflexivity|];
      split; [apply MatchString_iff; apply negb_false_iff; assumption|];
      unfold NewRequestWithContext; rewrite Heqr1; reflexivity
    | split; intros ].
  all: try reflexivity.
  all: exfalso; status_facts; lia.
Qed.

(** A 503 of the Orchestrator comes out of the Edge as a 503 with the fixed
    message. *)
Lemma edge_status_translation_witness :
  value (run (stub.scripted (fun _ => "http://app2:8080")
                (stub.replies 503 (http.Plain "unavailable"))
                stub.noAddress stub.noWeather)
           (app1.handler stub.runtime app1.main_app
              (stub.post (stub.cepBody "01001-000"))) tt)
  = http.Error "error on find weather in orchestrator service" 503.
Proof.
  destruct (edge_status_translation stub.runtime unit
              (stub.scripted (fun _ => "http://app2:8080")
                 (stub.replies 503 (http.Plain "unavailable"))
                 stub.noAddress stub.noWeather)
              tt (stub.post (stub.cepBody "01001-000"))) as [H _].
  edestruct H as (_ & _ & H4xx).
  - simpl. do 4 right. left. reflexivity.
  - apply H4xx; simpl; [discriminate | unfold http.StatusBadRequest; lia].
Defined.

Lemma ofFloat64_Some f v :
  json.ofFloat64 f = Some v ->
  v = json.JNumber f /\ PrimFloat.is_finite f = true.
Proof.
  unfold json.ofFloat64. destruct (PrimFloat.is_finite f); [|discriminate].
  intros H. injection H as <-. split; reflexivity.
Qed.

(** The Edge's [Response] reads back every field of a document the
    Orchestrator's [response] encodes to, and encodes to that document. *)
Lemma edge_decodes_orchestrator_json (rt : Runtime) (x : app2.response) doc :
  app2.Marshal x = Some doc ->
  exists y,
    app1.DecodeResponse rt (http.Document doc) = Ok y
    /\ app1.Marshal y = Some doc
    /\ app1.City y = app2.City x /\ app1.TempC y = app2.TempC x
    /\ app1.TempF y = app2.TempF x /\ app1.TempK y = app2.TempK x.
Proof.
  unfold app2.Marshal.
  destruct (json.ofFloat64 (app2.TempC x)) as [c|] eqn:Hc; [|discriminate].
  destruct (json.ofFloat64 (app2.TempF x)) as [f|] eqn:Hf; [|discriminate].
  destruct (json.ofFloat64 (app2.TempK x)) as [k|] eqn:Hk; [|discriminate].
  intros H. injection H as <-.
  exists (app1.mkResponse (app2.City x) (app2.TempC x) (app2.TempF x)
            (app2.TempK x)).
  unfold app1.Marshal. cbn [app1.City app1.TempC app1.TempF app1.TempK].
  rewrite Hc, Hf, Hk.
  apply ofFloat64_Some in Hc, Hf, Hk.
  destruct Hc as [-> Hc], Hf as [-> Hf], Hk as [-> Hk].
  split; [|repeat split; reflexivity].
  unfold app1.DecodeResponse, readDocument, json.intoStruct.
  cbn -[PrimFloat.is_finite]. rewrite Hc.
  cbn -[PrimFloat.is_finite]. rewrite Hf.
  cbn -[PrimFloat.is_finite]. rewrite Hk.
  reflexivity.
Qed.

(** C8.  When the Orchestrator answers the Edge with a status that is not an
    error (not 404 and below 400; its own success status is 200) and a body
    that is the JSON document its encoder makes of a [response], the Edge
    emits that same document; when the answer is the Orchestrator's success
    response as a whole, the Edge's response is equal to it. *)
Theorem edge_reemits_orchestrator_json (rt : Runtime) W (env : world W) (w : W)
    (r : http.Request) :
  let o := run env (app1.handler rt app1.main_app r) w in
  forall req (x : app2.response) doc status header,
    app2.Marshal x = Some doc ->
    In (DefaultTransport req,
        AResponse (Ok (http.mkResponse status header (http.Document doc))))
      (trace o) ->
    status <> http.StatusNotFound ->
    (status < http.StatusBadRequest)%Z ->
    http.ResponseBody (value o) = http.Document doc
    /\ value o = app2.writeJSON x.
Proof.
  intros o req x doc status header Hm Hin H404 H400.
  destruct (edge_decodes_orchestrator_json rt x doc Hm)
    as (y & Hdec & Hy & _).
  assert (app2.writeJSON x = app1.writeJSON y) as ->.
  { unfold app2.writeJSON, app1.writeJSON. rewrite Hm, Hy. reflexivity. }
  revert Hin. subst o. unfold app1.handler.
  unfold app1.main_app, http_Client_Do, otelhttp_NewTransport,
    app1.loggingRoundTripper_RoundTrip, http_DefaultTransport.
  cbn [app1.httpClient Transport].
  steps; finish; intros Hin; which Hin; inversion Hin; subst.
  all: cbn [http.StatusCode http.ResponseBody] in *.
  all: try (exfalso; status_facts; lia).
  all: match goal with
       | Hd : app1.DecodeResponse _ _ = _ |- _ =>
           rewrite Hdec in Hd; inversion Hd; subst
       end.
  split; [|reflexivity].
  unfold app1.writeJSON. rewrite Hy. reflexivity.
Qed.

(** The Orchestrator's answer for [Sampa] at 25.5 degrees Celsius goes
    through the Edge as it is. *)
Lemma edge_reemits_orchestrator_json_witness :
  value (run (stub.scripted (fun _ => "http://app2:8080")
                (fun _ => Ok (app2.writeJSON
                                (app2.mkresponse "Sampa" 25.5 77.9 298.65)))
                stub.noAddress stub.noWeather)
           (app1.handler stub.runtime app1.main_app
              (stub.post (stub.cepBody "01001-000"))) tt)
  = app2.writeJSON (app2.mkresponse "Sampa" 25.5 77.9 298.65).
Proof.
  refine (proj2 (edge_reemits_orchestrator_json stub.runtime unit
                   (stub.scripted (fun _ => "http://app2:8080")
                      (fun _ => Ok (app2.writeJSON
                                      (app2.mkresponse "Sampa" 25.5 77.9
                                         298.65)))
                      stub.noAddress stub.noWeather)
                   tt (stub.post (stub.cepBody "01001-000"))
                   _ (app2.mkresponse "Sampa" 25.5 77.9 298.65)
                   _ http.StatusOK [("Content-Type", "application/json")]
                   eq_refl _ _ _)).
  - simpl. do 4 right. left. reflexivity.
  - discriminate.
  - reflexivity.
Defined.

(* ================================================================= *)
(** ** The Address Resolver *)

(** C2.  Whatever the postal code (a well-formed one in particular), when
    the upstream of the Address Resolver answers, [FindAddressByCep] returns
    [ErrCepNotFound] if the status is not 2xx, and also if the status is 2xx
    and the payload decodes with [erro] set: the status and the flag are two
    separate tests. *)
Theorem address_not_found_channels (rt : Runtime) (base cep : string)
    W (env : world W) (w : W) :
  let c := viacep.withBaseURL viacep.NewClient base in
  let o := run env (viacep.FindAddressByCep rt c cep) w in
  forall req resp,
    In (DefaultTransport req, AResponse (Ok resp)) (trace o) ->
    (~ is2xx (http.StatusCode resp) -> value o = Err viacep.ErrCepNotFound)
    /\ (is2xx (http.StatusCode resp) ->
        forall data,
          viacep.Decode rt (http.ResponseBody resp) = Ok data ->
          viacep_types.Erro data = true ->
          value o = Err viacep.ErrCepNotFound).
Proof.
  intros c o req resp. subst o c.
  unfold viacep.FindAddressByCep, viacep.withBaseURL, viacep.NewClient,
    http_Client_Do, otelhttp_NewTransport, http_DefaultTransport.
  cbn [viacep.httpClient viacep.baseURL Transport].
  steps; finish; intros Hin; which Hin; inversion Hin; subst.
  all: split; intros; try reflexivity.
  all: status_facts.
  all: try (exfalso; lia).
  all: congruence.
Qed.

Lemma address_not_found_channels_witness :
  value (run (stub.scripted stub.noEnv (fun _ => Ok stub.erroTrue)
                stub.noAddress stub.noWeather)
           (viacep.FindAddressByCep stub.runtime
              (viacep.withBaseURL viacep.NewClient "http://127.0.0.1:8080")
              "99999-999") tt)
  = Err viacep.ErrCepNotFound.
Proof.
  edestruct (address_not_found_channels stub.runtime
               "http://127.0.0.1:8080" "99999-999" unit
               (stub.scripted stub.noEnv (fun _ => Ok stub.erroTrue)
                  stub.noAddress stub.noWeather)
               tt) as [_ Hflag].
  - simpl. do 2 right. left. reflexivity.
  - eapply Hflag.
    + unfold is2xx. simpl. lia.
    + reflexivity.
    + reflexivity.
Defined.

(** C6 as the spec has it fails: a 2xx answer other than 200 is turned into
    [ErrCepNotFound] although its payload decodes and [erro] is not set. *)
Lemma address_any_2xx_counterexample :
  ~ (forall (rt : Runtime) (base cep : string) W (env : world W) (w : W)
       req resp data,
       In (DefaultTransport req, AResponse (Ok resp))
          (trace (run env
                    (viacep.FindAddressByCep rt
                       (viacep.withBaseURL viacep.NewClient base) cep) w)) ->
       is2xx (http.StatusCode resp) ->
       viacep.Decode rt (http.ResponseBody resp) = Ok data ->
       viacep_types.Erro data = false ->
       value (run env
                (viacep.FindAddressByCep rt
                   (viacep.withBaseURL viacep.NewClient base) cep) w)
       = Ok data).
Proof.
  intros H.
  specialize (H stub.runtime "https://viacep.com.br" "01001-000" unit
                (stub.scripted stub.noEnv (fun _ => Ok stub.created)
                   stub.noAddress stub.noWeather)
                tt
                (http.mkRequest "GET"
                   (url.mkURL "https" "viacep.com.br" "/ws/01001-000/json/"
                      "" "")
                   [] (http.Plain ""))
                stub.created
                (viacep_types.mkViaCepResponse "01001-000" "" "Sampa" ""
                   false)).
  assert (is2xx (http.StatusCode stub.created)) as H2xx
    by (unfold is2xx; simpl; lia).
  specialize (H (or_intror (or_intror (or_introl eq_refl))) H2xx
                eq_refl eq_refl).
  discriminate H.
Qed.

(** C6, amended.  When the upstream of the Address Resolver answers with
    status 200, the payload decodes and [erro] is not set,
    [FindAddressByCep] returns the decoded address rather than an error.
    Every other status, 201 and 204 among them, gives [ErrCepNotFound],
    whatever the payload. *)
Theorem address_found_on_200 (rt : Runtime) (base cep : string)
    W (env : world W) (w : W) :
  let c := viacep.withBaseURL viacep.NewClient base in
  let o := run env (viacep.FindAddressByCep rt c cep) w in
  forall req resp,
    In (DefaultTransport req, AResponse (Ok resp)) (trace o) ->
    (http.StatusCode resp = http.StatusOK ->
     forall data,
       viacep.Decode rt (http.ResponseBody resp) = Ok data ->
       viacep_types.Erro data = false ->
       value o = Ok data)
    /\ (http.StatusCode resp <> http.StatusOK ->
        value o = Err viacep.ErrCepNotFound).
Proof.
  intros c o req resp. subst o c.
  unfold viacep.FindAddressByCep, viacep.withBaseURL, viacep.NewClient,
    http_Client_Do, otelhttp_NewTransport, http_DefaultTransport.
  cbn [viacep.httpClient viacep.baseURL Transport].
  steps; finish; intros Hin; which Hin; inversion Hin; subst.
  all: split; intros; try reflexivity.
  all: status_facts.
  all: try (exfalso; lia).
  all: congruence.
Qed.

(** A 200 with an address is returned; the same address under a 201 and an
    empty 204 are [ErrCepNotFound]. *)
Lemma address_found_on_200_witness :
  value (run (stub.scripted stub.noEnv (fun _ => Ok stub.found)
                stub.noAddress stub.noWeather)
           (viacep.FindAddressByCep stub.runtime
              (viacep.withBaseURL viacep.NewClient "http://127.0.0.1:8080")
              "01001-000") tt)
  = Ok (viacep_types.mkViaCepResponse "01001-000" "" "Sampa" "" false)
  /\ value (run (stub.scripted stub.noEnv (fun _ => Ok stub.created)
                   stub.noAddress stub.noWeather)
              (viacep.FindAddressByCep stub.runtime
                 (viacep.withBaseURL viacep.NewClient "http://127.0.0.1:8080")
                 "01001-000") tt)
     = Err viacep.ErrCepNotFound
  /\ value (run (stub.scripted stub.noEnv (stub.replies 204 (http.Plain ""))
                   stub.noAddress stub.noWeather)
              (viacep.FindAddressByCep stub.runtime
                 (viacep.withBaseURL viacep.NewClient "http://127.0.0.1:8080")
                 "01001-000") tt)
     = Err viacep.ErrCepNotFound.
Proof.
  split; [|split].
  - edestruct (address_found_on_200 stub.runtime "http://127.0.0.1:8080"
                 "01001-000" unit
                 (stub.scripted stub.noEnv (fun _ => Ok stub.found)
                    stub.noAddress stub.noWeather)
                 tt) as [Hfound _].
    + simpl. do 2 right. left. reflexivity.
    + apply Hfound; reflexivity.
  - edestruct (address_found_on_200 stub.runtime "http://127.0.0.1:8080"
                 "01001-000" unit
                 (stub.scripted stub.noEnv (fun _ => Ok stub.created)
                    stub.noAddress stub.noWeather)
                 tt) as [_ Hother].
    + simpl. do 2 right. left. reflexivity.
    + apply Hother. discriminate.
  - edestruct (address_found_on_200 stub.runtime "http://127.0.0.1:8080"
                 "01001-000" unit
                 (stub.scripted stub.noEnv (stub.replies 204 (http.Plain ""))
                    stub.noAddress stub.noWeather)
                 tt) as [_ Hother].
    + simpl. do 2 right. left. reflexivity.
    + apply Hother. discriminate.
Defined.

(* ================================================================= *)
(** ** The Weather Resolver *)

(** C10.  When the upstream of the Weather Resolver answers with status 200
    and a payload that decodes, [FindTemperatureByCity] returns the decoded
    value, whatever its [Erro] field; and the decoder does fill that field
    from the [erro] member of the payload. *)
Theorem weather_ignores_erro (rt : Runtime) (key base city : string)
    W (env : world W) (w : W) :
  let c := weatherapi.withBaseURL (weatherapi.NewClient rt key) base in
  let o := run env (weatherapi.FindTemperatureByCity rt c city) w in
  (forall req resp data,
     In (DefaultTransport req, AResponse (Ok resp)) (trace o) ->
     http.StatusCode resp = http.StatusOK ->
     weatherapi.Decode rt (http.ResponseBody resp) = Ok data ->
     value o = Ok data)
  /\ (forall tc tf erro,
        PrimFloat.is_finite tc = true ->
        PrimFloat.is_finite tf = true ->
        weatherapi.Decode rt
          (http.Document
             (json.JObject
                [("current",
                  json.JObject [("temp_c", json.JNumber tc);
                                ("temp_f", json.JNumber tf)]);
                 ("erro", json.JBool erro)]))
        = Ok (weatherapi_types.mkWeatherApiResponse
                (weatherapi_types.mkCurrentWeather tc tf) erro)).
Proof.
  intros c o. split.
  - intros req resp data. subst o c.
    unfold weatherapi.FindTemperatureByCity, weatherapi.withBaseURL,
      weatherapi.NewClient, http_Client_Do, otelhttp_NewTransport,
      weatherapi.redactingTransport_RoundTrip, http_DefaultTransport.
    cbn [weatherapi.httpClient weatherapi.baseURL weatherapi.apiKey Transport].
    steps; finish; intros Hin; which Hin; inversion Hin; subst; intros.
    all: status_facts.
    all: try (exfalso; lia).
    all: congruence.
  - intros tc tf erro Hc Hf.
    unfold weatherapi.Decode, readDocument, json.intoStruct.
    cbn -[PrimFloat.is_finite]. rewrite Hc.
    cbn -[PrimFloat.is_finite]. rewrite Hf.
    reflexivity.
Qed.

Lemma weather_ignores_erro_witness :
  value (run (stub.scripted stub.noEnv (fun _ => Ok stub.sunnyErro)
                stub.noAddress stub.noWeather)
           (weatherapi.FindTemperatureByCity stub.runtime
              (weatherapi.withBaseURL
                 (weatherapi.NewClient stub.runtime "SECRET")
                 "http://127.0.0.1:8080")
              "Sampa") tt)
  = Ok (weatherapi_types.mkWeatherApiResponse
          (weatherapi_types.mkCurrentWeather 25.5 77.9) true).
Proof.
  eapply (proj1 (weather_ignores_erro stub.runtime "SECRET"
                   "http://127.0.0.1:8080" "Sampa" unit
                   (stub.scripted stub.noEnv (fun _ => Ok stub.sunnyErro)
                      stub.noAddress stub.noWeather)
                   tt)).
  - simpl. do 3 right. left. reflexivity.
  - reflexivity.
  - reflexivity.
Defined.

(* ================================================================= *)
(** ** Query strings: what [Encode] writes, [Query] reads back *)

Lemma QueryEscape_cons c s :
  url.QueryEscape (String c s) = escapeByte c ++ url.QueryEscape s.
Proof.
  unfold escapeByte. cbn [url.QueryEscape].
  destruct (url.shouldEscape c); [destruct (Ascii.eqb c " ")|]; reflexivity.
Qed.

(** Case analysis on the 256 values of a byte. *)
Ltac each_byte c := destruct c as [[] [] [] [] [] [] [] []].

Lemma QueryUnescape_escapeByte c t :
  url.QueryUnescape (escapeByte c ++ t) =
  match url.QueryUnescape t with
  | Some t' => Some (String c t')
  | None => None
  end.
Proof.
  each_byte c; reflexivity.
Qed.

Lemma contains_escapeByte c x :
  x = "&"%char \/ x = ";"%char \/ x = "="%char ->
  url.contains x (escapeByte c) = false.
Proof.
  intros [-> | [-> | ->]]; each_byte c; reflexivity.
Qed.

Lemma QueryUnescape_QueryEscape s :
  url.QueryUnescape (url.QueryEscape s) = Some s.
Proof.
  induction s as [|c s IH]; [reflexivity|].
  rewrite QueryEscape_cons, QueryUnescape_escapeByte, IH. reflexivity.
Qed.

Lemma contains_app x a b :
  url.contains x (a ++ b) = url.contains x a || url.contains x b.
Proof.
  induction a as [|c a IH]; [reflexivity|].
  cbn [append url.contains]. rewrite IH. apply orb_assoc.
Qed.

Lemma contains_QueryEscape x s :
  x = "&"%char \/ x = ";"%char \/ x = "="%char ->
  url.contains x (url.QueryEscape s) = false.
Proof.
  intros Hx. induction s as [|c s IH]; [reflexivity|].
  rewrite QueryEscape_cons, contains_app, IH, contains_escapeByte by exact Hx.
  reflexivity.
Qed.

Lemma split_whole sep a :
  url.contains sep a = false -> url.split sep a = [a].
Proof.
  induction a as [|c a IH]; [reflexivity|].
  cbn [url.contains url.split]. intros H. apply orb_false_iff in H.
  destruct H as [Hc Ha]. rewrite Hc, (IH Ha). reflexivity.
Qed.

Lemma split_app sep a b :
  url.contains sep a = false ->
  url.split sep (a ++ String sep b) = a :: url.split sep b.
Proof.
  induction a as [|c a IH]; intros H.
  - cbn [append url.split]. rewrite Ascii.eqb_refl. reflexivity.
  - cbn [url.contains] in H. apply orb_false_iff in H. destruct H as [Hc Ha].
    cbn [append url.split]. rewrite Hc, (IH Ha). reflexivity.
Qed.

Lemma cut_app sep a b :
  url.contains sep a = false ->
  url.cut sep (a ++ String sep b) = (a, b).
Proof.
  induction a as [|c a IH]; intros H.
  - cbn [append url.cut]. rewrite Ascii.eqb_refl. reflexivity.
  - cbn [url.contains] in H. apply orb_false_iff in H. destruct H as [Hc Ha].
    cbn [append url.cut]. rewrite Hc, (IH Ha). reflexivity.
Qed.

Lemma contains_piece x k v :
  x = "&"%char \/ x = ";"%char ->
  url.contains x (piece k v) = false.
Proof.
  intros Hx. unfold piece. rewrite contains_app. cbn [url.contains].
  rewrite !contains_QueryEscape by tauto.
  destruct Hx as [-> | ->]; reflexivity.
Qed.

(** [parseQuery] reads a piece written by [Encode] back as it was. *)
Lemma parsePair_piece m k v :
  url.parsePair m (piece k v) = url.Values_Add m k v.
Proof.
  unfold url.parsePair. rewrite contains_piece by tauto.
  replace (String.eqb (piece k v) "") with false
    by (unfold piece; destruct (url.QueryEscape k); reflexivity).
  unfold piece. rewrite cut_app by (apply contains_QueryEscape; tauto).
  rewrite !QueryUnescape_QueryEscape. reflexivity.
Qed.

Lemma Encode_two k1 v1 k2 v2 :
  url.Values_Encode [(k1, [v1]); (k2, [v2])]
  = piece k1 v1 ++ String "&" (piece k2 v2).
Proof. reflexivity. Qed.

Lemma ParseQuery_Encode_two k1 v1 k2 v2 :
  url.ParseQuery (url.Values_Encode [(k1, [v1]); (k2, [v2])])
  = url.Values_Add (url.Values_Add [] k1 v1) k2 v2.
Proof.
  rewrite Encode_two. unfold url.ParseQuery.
  rewrite split_app by (apply contains_piece; tauto).
  rewrite split_whole by (apply contains_piece; tauto).
  cbn [fold_left]. rewrite !parsePair_piece. reflexivity.
Qed.

Lemma Encode_credentials key city :
  url.Values_Encode (url.Values_Add (url.Values_Add [] "key" key) "q" city)
  = credentialQuery key city.
Proof. reflexivity. Qed.

Lemma ParseQuery_credentials key city :
  url.ParseQuery (credentialQuery key city) = [("key", [key]); ("q", [city])].
Proof.
  unfold credentialQuery. rewrite ParseQuery_Encode_two. reflexivity.
Qed.

(* ================================================================= *)
(** ** The credential and the trace *)

(** The redacting transport alone: for a request whose query is the Weather
    Resolver's, it sets the two URL attributes with the mask in place of the
    credential and then hands the request, as it came, to its base. *)
Lemma redacting_round_trip (rt : Runtime) (key city method : string)
    (target : url.URL) header body W (env : world W) (w : W) :
  key <> "" ->
  let req :=
    http.mkRequest method
      (url.setRawQuery target (credentialQuery key city)) header body in
  let o :=
    run env
      (weatherapi.redactingTransport_RoundTrip rt http_DefaultTransport req)
      w in
  trace o =
    [(SpanSetAttributes (redactedAttributes rt target city), AUnit);
     (DefaultTransport req, AResponse (value o))].
Proof.
  intros Hkey req o. subst o.
  unfold weatherapi.redactingTransport_RoundTrip, http_DefaultTransport.
  unfold url.URL_Query. subst req.
  cbn [http.URL url.setRawQuery url.RawQuery url.Scheme url.Host url.Path
       url.Fragment].
  rewrite ParseQuery_credentials.
  cbn [url.Values_Get String.eqb Ascii.eqb Bool.eqb hd].
  apply String.eqb_neq in Hkey. rewrite Hkey. cbn [negb].
  steps. finish. reflexivity.
Qed.






(* ================================================================= *)
(** ** The two services end to end *)

(** Postal code [01001-000], city [São Paulo], 25.5 degrees Celsius: the
    client of the Edge gets the unified response with 298.65 kelvins. *)
Example end_to_end_found :
  stub.edge (stub.upstreams stub.saoPaulo stub.sunny) "01001-000"
  = http.mkResponse 200 [("Content-Type", "application/json")]
      (http.Document
         (json.JObject [("city", json.JString "São Paulo");
                        ("temp_C", json.JNumber 25.5);
                        ("temp_F", json.JNumber 77.9);
                        ("temp_K", json.JNumber 298.65)])).
Proof. vm_compute. reflexivity. Qed.

(** Postal code [99999-999], for which the address API answers 200 with
    [erro] set: the Orchestrator answers 404 and so does the Edge. *)
Example end_to_end_not_found :
  stub.orchestrator (stub.upstreams stub.erroTrue stub.sunny)
    (stub.get "cep=99999-999")
  = Ok (http.Error "CEP não encontrado" 404)
  /\ stub.edge (stub.upstreams stub.erroTrue stub.sunny) "99999-999"
     = http.Error "can not find zipcode" 404.
Proof. split; vm_compute; reflexivity. Qed.

(* ################################################################# *)
(** * Further properties *)

Ltac reading :=
  cbn [networkCalls filter isNetworkCall logLines logLineOf recordedErrors
       recordedErrorOf statusAttributes statusAttributeOf attributes
       attributesOf flat_map fst snd app calls map].

Ltac open_address :=
  unfold viacep.FindAddressByCep, viacep.withBaseURL, viacep.NewClient,
    http_Client_Do, otelhttp_NewTransport, http_DefaultTransport;
  cbn [viacep.httpClient viacep.baseURL Transport].

Ltac open_weather :=
  unfold weatherapi.FindTemperatureByCity, weatherapi.withBaseURL,
    weatherapi.NewClient, http_Client_Do, otelhttp_NewTransport,
    weatherapi.redactingTransport_RoundTrip, http_DefaultTransport;
  cbn [weatherapi.httpClient weatherapi.baseURL weatherapi.apiKey Transport].

(* ================================================================= *)
(** ** The Address Resolver: failures, results, requests *)

(** X1.  When the exchange with the address API fails, and when its answer
    with status 200 does not decode, [FindAddressByCep] returns
    [ErrInternal]: the cause is recorded on the span and written to the log,
    and it is not what the caller gets. *)
Theorem address_failures_are_internal (rt : Runtime) (base cep : string)
    W (env : world W) (w : W) :
  let c := viacep.withBaseURL viacep.NewClient base in
  let o := run env (viacep.FindAddressByCep rt c cep) w in
  (forall req err,
     In (DefaultTransport req, AResponse (Err err)) (trace o) ->
     value o = Err viacep.ErrInternal
     /\ recordedErrors (trace o) = [err]
     /\ logLines (trace o)
        = ["Error requesting from ViaCEP API: " ++ Error err])
  /\ (forall req resp err,
        In (DefaultTransport req, AResponse (Ok resp)) (trace o) ->
        http.StatusCode resp = http.StatusOK ->
        viacep.Decode rt (http.ResponseBody resp) = Err err ->
        value o = Err viacep.ErrInternal
        /\ recordedErrors (trace o) = [err]
        /\ logLines (trace o)
           = ["Error decoding ViaCEP API response: " ++ Error err]).
Proof.
  intros c o. subst o c. open_address.
  steps; finish; split; intros.
  all: which H; inversion H; subst.
  all: try (split; [reflexivity|split; reflexivity]).
  all: status_facts; try (exfalso; lia); try congruence.
  all: match goal with
       | A : ?x = Err _, B : ?x = Err _ |- _ => rewrite A in B; inversion B; subst
       end.
  all: split; [reflexivity|split; reflexivity].
Qed.

(** The network refuses the connection: the caller sees [ErrInternal]. *)
Lemma address_failures_are_internal_witness :
  value (run (stub.scripted stub.noEnv stub.noNet stub.noAddress
                stub.noWeather)
           (viacep.FindAddressByCep stub.runtime
              (viacep.withBaseURL viacep.NewClient "http://127.0.0.1:8080")
              "01001-000") tt)
  = Err viacep.ErrInternal.
Proof.
  destruct (address_failures_are_internal stub.runtime
              "http://127.0.0.1:8080" "01001-000" unit
              (stub.scripted stub.noEnv stub.noNet stub.noAddress
                 stub.noWeather) tt) as [H _].
  edestruct H as (Hv & _).
  - simpl. do 2 right. left. reflexivity.
  - exact Hv.
Defined.

(** X2.  Whatever [FindAddressByCep] returns.  An address comes with [erro]
    unset, out of the one exchange of the call, whose answer had status 200
    and decodes to that address.  An error is [ErrCepNotFound],
    [ErrInternal], or the error of a URL that did not parse, and then
    nothing was sent. *)
Theorem address_result_invariant (rt : Runtime) (base cep : string)
    W (env : world W) (w : W) :
  let c := viacep.withBaseURL viacep.NewClient base in
  let o := run env (viacep.FindAddressByCep rt c cep) w in
  match value o with
  | Ok data =>
      viacep_types.Erro data = false
      /\ exists req resp,
           networkCalls (trace o) = [(DefaultTransport req, AResponse (Ok resp))]
           /\ http.StatusCode resp = http.StatusOK
           /\ viacep.Decode rt (http.ResponseBody resp) = Ok data
  | Err e =>
      e = viacep.ErrCepNotFound \/ e = viacep.ErrInternal
      \/ (NewRequestWithContext rt "GET" (base ++ "/ws/" ++ cep ++ "/json/")
          = Err e
          /\ networkCalls (trace o) = [])
  end.
Proof.
  intros c o. subst o c. open_address.
  steps; finish; reading; auto.
  split; [assumption|]. do 2 eexists. split; [reflexivity|].
  status_facts. split; assumption.
Qed.

(** X3.  [FindAddressByCep] sends one request when its URL parses, a GET
    for the base URL followed by [/ws/], the code and [/json/], and never a
    second one; when the URL does not parse it sends none, returns the
    parser's error as it is, records it on the span and writes no log line.
    The attributes it sets are the code and, when an answer arrived, the
    status of the answer. *)
Theorem address_single_request (rt : Runtime) (base cep : string)
    W (env : world W) (w : W) :
  let c := viacep.withBaseURL viacep.NewClient base in
  let o := run env (viacep.FindAddressByCep rt c cep) w in
  match NewRequestWithContext rt "GET" (base ++ "/ws/" ++ cep ++ "/json/") with
  | Ok req =>
      exists a, networkCalls (trace o) = [(DefaultTransport req, AResponse a)]
  | Err e =>
      networkCalls (trace o) = [] /\ value o = Err e
      /\ recordedErrors (trace o) = [e] /\ logLines (trace o) = []
  end
  /\ attributes (trace o)
     = ("cep.value", AttrString cep) :: statusAttributes (trace o).
Proof.
  intros c o. subst o c. open_address.
  unfold NewRequestWithContext.
  destruct (url_Parse rt (base ++ "/ws/" ++ cep ++ "/json/")) eqn:Hp.
  all: steps; finish; reading.
  all: split; [|reflexivity].
  all: try (eexists; reflexivity).
  repeat split; reflexivity.
Qed.

(* ================================================================= *)
(** ** The Weather Resolver: statuses, failures, requests *)

(** X4.  Any answer of the weather API whose status is not 200 (a 4xx, a
    5xx, another 2xx) is [ErrCityNotFound]; it is not recorded as an error on
    the span and not logged. *)
Theorem weather_any_other_status_is_not_found (rt : Runtime)
    (key base city : string) W (env : world W) (w : W) :
  let c := weatherapi.withBaseURL (weatherapi.NewClient rt key) base in
  let o := run env (weatherapi.FindTemperatureByCity rt c city) w in
  forall req resp,
    In (DefaultTransport req, AResponse (Ok resp)) (trace o) ->
    http.StatusCode resp <> http.StatusOK ->
    value o = Err weatherapi.ErrCityNotFound
    /\ recordedErrors (trace o) = []
    /\ logLines (trace o) = [].
Proof.
  intros c o req resp. subst o c. open_weather.
  steps; finish; reading; intros Hin Hs; which Hin; inversion Hin; subst.
  all: try (repeat split; reflexivity).
  all: status_facts; exfalso; congruence.
Qed.

(** The package's own test: a 400 from the weather API is [ErrCityNotFound]. *)
Lemma weather_any_other_status_is_not_found_witness :
  value (run (stub.scripted stub.noEnv (stub.replies 400 (http.Plain ""))
                stub.noAddress stub.noWeather)
           (weatherapi.FindTemperatureByCity stub.runtime
              (weatherapi.withBaseURL
                 (weatherapi.NewClient stub.runtime "fake-api-key")
                 "http://127.0.0.1:8080")
              "CidadeInexistente") tt)
  = Err weatherapi.ErrCityNotFound.
Proof.
  edestruct (weather_any_other_status_is_not_found stub.runtime
               "fake-api-key" "http://127.0.0.1:8080" "CidadeInexistente"
               unit
               (stub.scripted stub.noEnv (stub.replies 400 (http.Plain ""))
                  stub.noAddress stub.noWeather) tt) as (Hv & _).
  - simpl. do 3 right. left. reflexivity.
  - discriminate.
  - exact Hv.
Defined.

(** X5.  [FindTemperatureByCity] returns [ErrInternal] when its base URL
    does not parse (and then nothing is sent), when the exchange fails, and
    when an answer with status 200 does not decode; each time the cause is
    recorded on the span and written to the log. *)
Theorem weather_failures_are_internal (rt : Runtime) (key base city : string)
    W (env : world W) (w : W) :
  let c := weatherapi.withBaseURL (weatherapi.NewClient rt key) base in
  let o := run env (weatherapi.FindTemperatureByCity rt c city) w in
  (forall err,
     url_Parse rt base = Err err ->
     value o = Err weatherapi.ErrInternal
     /\ networkCalls (trace o) = []
     /\ recordedErrors (trace o) = [err]
     /\ logLines (trace o) = ["Invalid base URL: " ++ Error err])
  /\ (forall req err,
        In (DefaultTransport req, AResponse (Err err)) (trace o) ->
        value o = Err weatherapi.ErrInternal
        /\ recordedErrors (trace o) = [err]
        /\ logLines (trace o)
           = ["Error requesting from WeatherAPI: " ++ Error err])
  /\ (forall req resp err,
        In (DefaultTransport req, AResponse (Ok resp)) (trace o) ->
        http.StatusCode resp = http.StatusOK ->
        weatherapi.Decode rt (http.ResponseBody resp) = Err err ->
        value o = Err weatherapi.ErrInternal
        /\ recordedErrors (trace o) = [err]
        /\ logLines (trace o)
           = ["Error decoding WeatherAPI response: " ++ Error err]).
Proof.
  intros c o. subst o c. open_weather.
  steps; finish; reading.
  all: split; [|split]; intros.
  all: try congruence.
  all: try (match goal with
            | A : url_Parse ?rt ?b = _, B : url_Parse ?rt ?b = _ |- _ =>
                rewrite A in B; inversion B; subst
            end; repeat split; reflexivity).
  all: try (which H; inversion H; subst).
  all: try (repeat split; reflexivity).
  all: status_facts; try (exfalso; congruence).
  all: match goal with
       | A : ?x = Err _, B : ?x = Err _ |- _ => rewrite A in B; inversion B; subst
       end.
  all: repeat split; reflexivity.
Qed.

(** A base URL without a scheme: [ErrInternal], and nothing is sent. *)
Lemma weather_failures_are_internal_witness :
  value (run (stub.scripted stub.noEnv stub.noNet stub.noAddress
                stub.noWeather)
           (weatherapi.FindTemperatureByCity stub.runtime
              (weatherapi.withBaseURL
                 (weatherapi.NewClient stub.runtime "fake-api-key")
                 "127.0.0.1")
              "Sampa") tt)
  = Err weatherapi.ErrInternal.
Proof.
  destruct (weather_failures_are_internal stub.runtime "fake-api-key"
              "127.0.0.1" "Sampa" unit
              (stub.scripted stub.noEnv stub.noNet stub.noAddress
                 stub.noWeather) tt) as [H _].
  destruct (H (ErrLibrary "parse: missing protocol scheme") eq_refl)
    as (Hv & _).
  exact Hv.
Defined.

(** X6.  When its base URL parses, [FindTemperatureByCity] sends one request
    at most: a GET for the base URL with [/current.json] added to its path
    and a query that a server reads back as exactly [key], the credential,
    and [q], the city, whatever bytes the city holds.  A city cannot add a
    parameter or change one.  If that URL does not parse back the error is
    returned as it is and nothing is sent. *)
Theorem weather_request_carries_city_verbatim (rt : Runtime)
    (key base city : string) (u : url.URL) W (env : world W) (w : W) :
  url_Parse rt base = Ok u ->
  let c := weatherapi.withBaseURL (weatherapi.NewClient rt key) base in
  let o := run env (weatherapi.FindTemperatureByCity rt c city) w in
  let sent := weatherURL u key city in
  match NewRequestWithContext rt "GET" (URL_String rt sent) with
  | Ok req =>
      exists a, networkCalls (trace o) = [(DefaultTransport req, AResponse a)]
  | Err e =>
      networkCalls (trace o) = [] /\ value o = Err e
      /\ recordedErrors (trace o) = [e] /\ logLines (trace o) = []
  end
  /\ url.URL_Query sent = [("key", [key]); ("q", [city])]
  /\ url.Path sent = url.Path u ++ "/current.json"
  /\ url.Scheme sent = url.Scheme u /\ url.Host sent = url.Host u.
Proof.
  intros Hbase c o sent. subst o c sent. unfold weatherURL.
  split.
  - open_weather. rewrite Hbase. rewrite Encode_credentials.
    unfold NewRequestWithContext.
    destruct (url_Parse rt _) eqn:Hp.
    all: steps; finish; reading.
    all: try (eexists; reflexivity).
    all: repeat split; reflexivity.
  - split; [|repeat split; reflexivity].
    unfold url.URL_Query. cbn [url.setRawQuery url.RawQuery].
    apply ParseQuery_credentials.
Qed.

(** A city with a space, an ampersand and an equals sign is read back as it
    was, and adds no parameter. *)
Lemma weather_request_carries_city_verbatim_witness :
  url.URL_Query
    (weatherURL (url.mkURL "http" "127.0.0.1:8080" "" "" "") "fake-api-key"
       "Sampa &key=x")
  = [("key", ["fake-api-key"]); ("q", ["Sampa &key=x"])].
Proof.
  refine (proj1 (proj2
            (weather_request_carries_city_verbatim stub.runtime
               "fake-api-key" "http://127.0.0.1:8080" "Sampa &key=x"
               (url.mkURL "http" "127.0.0.1:8080" "" "" "") unit
               (stub.scripted stub.noEnv stub.noNet stub.noAddress
                  stub.noWeather) tt eq_refl))).
Defined.

(* ================================================================= *)
(** ** Query maps: order, lookup, and the round trip through a query string *)

Lemma compare_Lt_trans a b c :
  String.compare a b = Lt -> String.compare b c = Lt -> String.compare a c = Lt.
Proof.
  revert b c. induction a as [|x a IH]; intros [|y b] [|z c]; cbn;
    try discriminate; auto.
  unfold Ascii.compare.
  destruct (N.compare_spec (N_of_ascii x) (N_of_ascii y)) as [Hxy|Hxy|Hxy];
    try discriminate;
  destruct (N.compare_spec (N_of_ascii y) (N_of_ascii z)) as [Hyz|Hyz|Hyz];
    try discriminate; intros H1 H2.
  - rewrite Hxy, Hyz, N.compare_refl. eauto.
  - rewrite Hxy. apply N.compare_lt_iff in Hyz. rewrite Hyz. reflexivity.
  - rewrite <- Hyz. apply N.compare_lt_iff in Hxy. rewrite Hxy. reflexivity.
  - assert (N_of_ascii x < N_of_ascii z)%N as H by lia.
    apply N.compare_lt_iff in H. rewrite H. reflexivity.
Qed.

Lemma ltb_trans a b c :
  String.ltb a b = true -> String.ltb b c = true -> String.ltb a c = true.
Proof.
  unfold String.ltb.
  destruct (String.compare a b) eqn:Hab; try discriminate.
  destruct (String.compare b c) eqn:Hbc; try discriminate.
  rewrite (compare_Lt_trans a b c Hab Hbc). reflexivity.
Qed.

Lemma compare_refl a : String.compare a a = Eq.
Proof.
  induction a as [|x a IH]; [reflexivity|].
  cbn. unfold Ascii.compare. rewrite N.compare_refl. exact IH.
Qed.

Lemma ltb_neq a b : String.ltb a b = true -> String.eqb a b = false.
Proof.
  unfold String.ltb. intros H. apply String.eqb_neq. intros ->.
  rewrite compare_refl in H. discriminate.
Qed.

Lemma ltb_asym a b : String.ltb a b = true -> String.ltb b a = false.
Proof.
  unfold String.ltb. rewrite (String.compare_antisym b a).
  destruct (String.compare a b); try discriminate. reflexivity.
Qed.

Lemma ltb_total a b :
  String.eqb a b = false -> String.ltb a b = false -> String.ltb b a = true.
Proof.
  unfold String.ltb. rewrite (String.compare_antisym b a).
  destruct (String.compare a b) eqn:H; try discriminate; try reflexivity.
  apply String.compare_eq_iff in H. subst. rewrite String.eqb_refl.
  discriminate.
Qed.

(** ** [update] keeps the shape, and reads back *)

Lemma update_head v key f k :
  (forall kv, In kv v -> String.ltb k (fst kv) = true) ->
  String.ltb k key = true ->
  forall kv, In kv (url.update v key f) -> String.ltb k (fst kv) = true.
Proof.
  induction v as [|[k0 vs] rest IH]; intros Hv Hk kv; cbn.
  - intros [<-|[]]. exact Hk.
  - destruct (String.eqb k0 key) eqn:He.
    + intros [<-|H]; [apply (Hv (k0, vs)); left; reflexivity|].
      apply Hv. right. exact H.
    + destruct (String.ltb key k0).
      * intros [<-|H]; [exact Hk|]. apply Hv. exact H.
      * intros [<-|H]; [apply (Hv (k0, vs)); left; reflexivity|].
        apply IH; auto. intros kv' H'. apply Hv. right. exact H'.
Qed.

Lemma update_wellFormed v key f :
  (forall vs, f vs <> []) ->
  wellFormed v -> wellFormed (url.update v key f).
Proof.
  intros Hf [Hs Hn]. induction v as [|[k0 vs] rest IH]; cbn.
  - split; repeat constructor. apply Hf.
  - inversion Hs as [|? ? Hs' Hlt]; subst. inversion Hn as [|? ? Hn0 Hn']; subst.
    destruct (String.eqb k0 key) eqn:He.
    + split; constructor; auto. apply Hf.
    + destruct (String.ltb key k0) eqn:Hl.
      * split; constructor; auto.
        -- constructor; [exact Hl|].
           rewrite Forall_forall in *. intros kv Hkv.
           unfold keyLt in *. cbn [fst] in *.
           eapply ltb_trans; [exact Hl | apply Hlt; exact Hkv].
        -- apply Hf.
      * destruct (IH Hs' Hn') as [IHs IHn].
        split; constructor; auto.
        rewrite Forall_forall in *. intros kv Hkv.
        unfold keyLt in *. cbn [fst] in *.
        eapply update_head; [| |exact Hkv]; [exact Hlt|].
        apply ltb_total; [rewrite String.eqb_sym; exact He|exact Hl].
Qed.

Lemma lookup_above v key :
  (forall kv, In kv v -> String.ltb key (fst kv) = true) ->
  Values_lookup v key = [].
Proof.
  induction v as [|[k0 vs] rest IH]; intros H; cbn; [reflexivity|].
  rewrite String.eqb_sym, (ltb_neq key k0).
  - apply IH. intros kv Hkv. apply H. right. exact Hkv.
  - apply (H (k0, vs)). left. reflexivity.
Qed.

Lemma sorted_above k0 vs rest key :
  StronglySorted keyLt ((k0, vs) :: rest) ->
  String.ltb key k0 = true ->
  forall kv, In kv ((k0, vs) :: rest) -> String.ltb key (fst kv) = true.
Proof.
  intros Hs Hl kv [<-|Hkv]; [exact Hl|].
  inversion Hs as [|? ? _ Hlt]; subst. rewrite Forall_forall in Hlt.
  eapply ltb_trans; [exact Hl|]. apply (Hlt kv Hkv).
Qed.

Lemma lookup_update_same v key f :
  StronglySorted keyLt v ->
  Values_lookup (url.update v key f) key = f (Values_lookup v key).
Proof.
  induction v as [|[k0 vs] rest IH]; intros Hs; cbn.
  - rewrite String.eqb_refl. reflexivity.
  - destruct (String.eqb k0 key) eqn:He.
    + cbn. rewrite He. reflexivity.
    + destruct (String.ltb key k0) eqn:Hl.
      * cbn. rewrite String.eqb_refl.
        rewrite (lookup_above rest key); [reflexivity|].
        intros kv Hkv. apply (sorted_above k0 vs rest key Hs Hl). right.
        exact Hkv.
      * cbn. rewrite He. apply IH. inversion Hs; assumption.
Qed.

Lemma lookup_update_other v key f k :
  k <> key ->
  Values_lookup (url.update v key f) k = Values_lookup v k.
Proof.
  intros Hk. apply String.eqb_neq in Hk.
  induction v as [|[k0 vs] rest IH]; cbn.
  - rewrite String.eqb_sym, Hk. reflexivity.
  - destruct (String.eqb k0 key) eqn:He.
    + cbn. apply String.eqb_eq in He. subst k0.
      rewrite String.eqb_sym, Hk. reflexivity.
    + destruct (String.ltb key k0) eqn:Hl.
      * cbn. rewrite (String.eqb_sym key k), Hk. reflexivity.
      * cbn. rewrite IH. reflexivity.
Qed.

Lemma Get_lookup v key : url.Values_Get v key = hd "" (Values_lookup v key).
Proof.
  induction v as [|[k0 vs] rest IH]; cbn; [reflexivity|].
  destruct (String.eqb k0 key); [reflexivity|exact IH].
Qed.

(** ** What [Encode] writes, [ParseQuery] reads back *)

Lemma parsePair_wellFormed m p : wellFormed m -> wellFormed (url.parsePair m p).
Proof.
  intros Hm. unfold url.parsePair.
  destruct (url.contains ";" p); [exact Hm|].
  destruct (String.eqb p ""); [exact Hm|].
  destruct (url.cut "=" p) as [k x].
  destruct (url.QueryUnescape k); [|exact Hm].
  destruct (url.QueryUnescape x); [|exact Hm].
  apply update_wellFormed; [|exact Hm].
  intros vs. destruct vs; discriminate.
Qed.

Lemma fold_parsePair_wellFormed ps m :
  wellFormed m -> wellFormed (fold_left url.parsePair ps m).
Proof.
  revert m. induction ps as [|p ps IH]; intros m Hm; cbn; [exact Hm|].
  apply IH, parsePair_wellFormed, Hm.
Qed.

Lemma ParseQuery_wellFormed q : wellFormed (url.ParseQuery q).
Proof.
  apply fold_parsePair_wellFormed. split; constructor.
Qed.

Lemma Encode_pieces v : url.Values_Encode v = String.concat "&" (pieces v).
Proof. reflexivity. Qed.

Lemma split_concat l :
  l <> [] ->
  Forall (fun p => url.contains "&" p = false) l ->
  url.split "&" (String.concat "&" l) = l.
Proof.
  induction l as [|p l IH]; intros Hne Hl; [congruence|].
  inversion Hl as [|? ? Hp Hl']; subst.
  destruct l as [|p' l].
  - cbn. apply split_whole, Hp.
  - change (String.concat "&" (p :: p' :: l))
      with (p ++ String "&" (String.concat "&" (p' :: l))).
    rewrite split_app by exact Hp. rewrite IH; [reflexivity|discriminate|exact Hl'].
Qed.

Lemma pieces_free v : Forall (fun p => url.contains "&" p = false) (pieces v).
Proof.
  unfold pieces. rewrite Forall_forall. intros p Hp.
  apply in_flat_map in Hp. destruct Hp as ([k vs] & _ & Hp).
  apply in_map_iff in Hp. destruct Hp as (x & <- & _).
  apply contains_piece. tauto.
Qed.

Lemma fold_parsePair_pieces k vs m :
  fold_left url.parsePair (map (piece k) vs) m
  = fold_left (fun m x => url.Values_Add m k x) vs m.
Proof.
  revert m. induction vs as [|x vs IH]; intros m; cbn; [reflexivity|].
  rewrite parsePair_piece. apply IH.
Qed.

(** Adding values under a key above all keys of the map. *)
Lemma update_snoc m key f :
  (forall kv, In kv m -> String.ltb (fst kv) key = true) ->
  url.update m key f = (m ++ [(key, f [])])%list.
Proof.
  induction m as [|[k0 vs] rest IH]; intros H; cbn; [reflexivity|].
  assert (String.ltb k0 key = true) as Hl
    by (apply (H (k0, vs)); left; reflexivity).
  rewrite (ltb_neq _ _ Hl), (ltb_asym _ _ Hl), IH; [reflexivity|].
  intros kv Hkv. apply H. right. exact Hkv.
Qed.

Lemma update_last m key vs f :
  (forall kv, In kv m -> String.ltb (fst kv) key = true) ->
  url.update (m ++ [(key, vs)])%list key f = (m ++ [(key, f vs)])%list.
Proof.
  induction m as [|[k0 vs0] rest IH]; intros H; cbn.
  - rewrite String.eqb_refl. reflexivity.
  - assert (String.ltb k0 key = true) as Hl
      by (apply (H (k0, vs0)); left; reflexivity).
    rewrite (ltb_neq _ _ Hl), (ltb_asym _ _ Hl), IH; [reflexivity|].
    intros kv Hkv. apply H. right. exact Hkv.
Qed.

Lemma add_values m key vs xs :
  (forall kv, In kv m -> String.ltb (fst kv) key = true) ->
  fold_left (fun m x => url.Values_Add m key x) xs (m ++ [(key, vs)])%list
  = (m ++ [(key, vs ++ xs)])%list.
Proof.
  intros H. revert vs. induction xs as [|x xs IH]; intros vs; cbn.
  - rewrite app_nil_r. reflexivity.
  - unfold url.Values_Add at 2. rewrite update_last by exact H.
    rewrite IH, <- app_assoc. reflexivity.
Qed.

Lemma rebuild v m :
  wellFormed v ->
  (forall a b, In a m -> In b v -> String.ltb (fst a) (fst b) = true) ->
  fold_left url.parsePair (pieces v) m = (m ++ v)%list.
Proof.
  revert m. induction v as [|[k vs] rest IH]; intros m [Hs Hn] Hm.
  - cbn. rewrite app_nil_r. reflexivity.
  - inversion Hs as [|? ? Hs' Hlt]; subst.
    inversion Hn as [|? ? Hv Hn']; subst. cbn [snd] in Hv.
    rewrite Forall_forall in Hlt.
    change (pieces ((k, vs) :: rest))
      with (map (piece k) vs ++ pieces rest)%list.
    rewrite fold_left_app, fold_parsePair_pieces.
    destruct vs as [|x xs]; [congruence|].
    assert (forall kv, In kv m -> String.ltb (fst kv) k = true) as Hmk.
    { intros kv Hkv. apply (Hm kv (k, x :: xs) Hkv). left. reflexivity. }
    cbn [fold_left]. unfold url.Values_Add at 2.
    rewrite update_snoc by exact Hmk. cbn [app].
    rewrite add_values by exact Hmk.
    rewrite IH.
    + rewrite <- app_assoc. reflexivity.
    + split; assumption.
    + intros a b Ha Hb. apply in_app_or in Ha. destruct Ha as [Ha|[<-|[]]].
      * eapply ltb_trans; [apply Hmk, Ha|]. apply (Hlt b Hb).
      * apply (Hlt b Hb).
Qed.

(** [ParseQuery] is a left inverse of [Encode] on maps of the kept shape. *)
Lemma ParseQuery_Encode v : wellFormed v -> url.ParseQuery (url.Values_Encode v) = v.
Proof.
  intros Hv. unfold url.ParseQuery. rewrite Encode_pieces.
  destruct (pieces v) as [|p ps] eqn:Hp.
  - destruct v as [|[k vs] rest]; [reflexivity|].
    destruct Hv as [_ Hn]. inversion Hn as [|? ? Hne _]; subst.
    destruct vs; [elim Hne; reflexivity|discriminate Hp].
  - rewrite split_concat; [|discriminate|rewrite <- Hp; apply pieces_free].
    rewrite <- Hp. rewrite (rebuild v []); [reflexivity|exact Hv|].
    intros a b [].
Qed.

(** X7.  The redacting transport is transparent.  After at most one
    [SetAttributes] of its own, what it does and what it returns is what its
    base does with the same request.  For a request without a [key]
    parameter, or with an empty one, it does nothing of its own. *)
Theorem redacting_is_transparent (rt : Runtime) (base : RoundTripper)
    (req : http.Request) W (env : world W) (w : W) :
  let o := run env (weatherapi.redactingTransport_RoundTrip rt base req) w in
  exists pre w',
    trace o = (pre ++ trace (run env (base req) w'))%list
    /\ value o = value (run env (base req) w')
    /\ final o = final (run env (base req) w')
    /\ ((pre = [] /\ w' = w)
        \/ exists kvs, pre = [(SpanSetAttributes kvs, AUnit)])
    /\ (url.Values_Get (url.URL_Query (http.URL req)) "key" = "" ->
        pre = [] /\ w' = w).
Proof.
  intros o. subst o. unfold weatherapi.redactingTransport_RoundTrip.
  rewrite run_bind. cbn zeta.
  destruct (String.eqb (url.Values_Get (url.URL_Query (http.URL req)) "key") "")
    eqn:He; cbn [negb].
  - exists [], w. cbn [run value trace final app].
    split; [reflexivity|]. split; [reflexivity|]. split; [reflexivity|].
    split; [left|]; split; reflexivity.
  - steps. finish. eexists ((SpanSetAttributes _, AUnit) :: nil), w0.
    split; [cbn [app]; reflexivity|].
    split; [reflexivity|]. split; [reflexivity|]. split.
    + right. eexists. reflexivity.
    + intros H. rewrite H in He. discriminate.
Qed.

(** X8.  For every request with a [key] parameter that is not empty,
    however many values [key] has and whatever else the query holds, the
    redacting transport records the request's URL with a query that reads
    back as: the one value [***] for [key], and every other parameter with
    the values it has in the request. *)
Theorem redacting_masks_every_key_value (rt : Runtime) (base : RoundTripper)
    (req : http.Request) W (env : world W) (w : W) :
  url.Values_Get (url.URL_Query (http.URL req)) "key" <> "" ->
  let o := run env (weatherapi.redactingTransport_RoundTrip rt base req) w in
  exists q w',
    let masked := URL_String rt (url.setRawQuery (http.URL req) q) in
    trace o
    = (SpanSetAttributes [(semconv_HTTPURLKey, AttrString masked);
                          (semconv_URLFullKey, AttrString masked)], AUnit)
      :: trace (run env (base req) w')
    /\ Values_lookup (url.ParseQuery q) "key" = ["***"]
    /\ (forall k, k <> "key" ->
        Values_lookup (url.ParseQuery q) k
        = Values_lookup (url.URL_Query (http.URL req)) k).
Proof.
  intros Hkey o. subst o. unfold weatherapi.redactingTransport_RoundTrip.
  apply String.eqb_neq in Hkey. rewrite Hkey. cbn [negb].
  exists (url.Values_Encode
            (url.Values_Set (url.URL_Query (http.URL req)) "key" "***")).
  rewrite run_bind. steps. finish. exists w0. cbn [app].
  split; [reflexivity|].
  unfold url.Values_Set, url.URL_Query.
  rewrite ParseQuery_Encode
    by (apply update_wellFormed;
        [discriminate | apply ParseQuery_wellFormed]).
  split.
  - apply lookup_update_same. apply ParseQuery_wellFormed.
  - intros k Hk. apply lookup_update_other. exact Hk.
Qed.

(** A request that repeats [key]: both values are gone from what is
    recorded. *)
Lemma redacting_masks_every_key_value_witness :
  exists q w',
    let masked :=
      URL_String stub.runtime
        (url.setRawQuery (http.URL (stub.get "key=a&q=x&key=b")) q) in
    trace (run (stub.scripted stub.noEnv stub.noNet stub.noAddress
                  stub.noWeather)
             (weatherapi.redactingTransport_RoundTrip stub.runtime
                http_DefaultTransport (stub.get "key=a&q=x&key=b")) tt)
    = (SpanSetAttributes [(semconv_HTTPURLKey, AttrString masked);
                          (semconv_URLFullKey, AttrString masked)], AUnit)
      :: trace (run (stub.scripted stub.noEnv stub.noNet stub.noAddress
                       stub.noWeather)
                  (http_DefaultTransport (stub.get "key=a&q=x&key=b")) w')
    /\ Values_lookup (url.ParseQuery q) "key" = ["***"]
    /\ (forall k, k <> "key" ->
        Values_lookup (url.ParseQuery q) k
        = Values_lookup (url.URL_Query (http.URL (stub.get "key=a&q=x&key=b")))
            k).
Proof.
  apply (redacting_masks_every_key_value stub.runtime http_DefaultTransport
           (stub.get "key=a&q=x&key=b") unit
           (stub.scripted stub.noEnv stub.noNet stub.noAddress stub.noWeather)
           tt).
  discriminate.
Defined.

(* ================================================================= *)
(** ** The Orchestrator: statuses, log lines, and its clients *)

Ltac open_orchestrator :=
  unfold app2.handler, app2.seams;
  cbn [app2.viaCepClient app2.weatherApiClient].

(** X10.  The Orchestrator's handler answers with status 200, 400, 404, 422
    or 500, and with no other. *)
Theorem orchestrator_statuses (W : Type) (env : world W) (w : W)
    (r : http.Request) :
  let o := run env (app2.handler app2.seams r) w in
  In (http.StatusCode (value o))
    [http.StatusOK; http.StatusBadRequest; http.StatusNotFound;
     http.StatusUnprocessableEntity; http.StatusInternalServerError].
Proof.
  intros o. subst o. open_orchestrator.
  steps; finish; cbn; tauto.
Qed.

(** X11.  The Orchestrator's handler writes to the log exactly when it
    answers 500, and then one line that ends with the text of the resolver's
    error.  An address that is not found and a code that is rejected leave
    no line. *)
Theorem orchestrator_logs_internal_errors (W : Type) (env : world W) (w : W)
    (r : http.Request) :
  let o := run env (app2.handler app2.seams r) w in
  (logLines (trace o) = [] <->
   http.StatusCode (value o) <> http.StatusInternalServerError)
  /\ (forall cep err,
        In (ViaCepClient cep, AAddress (Err err)) (trace o) ->
        err <> viacep.ErrCepNotFound ->
        logLines (trace o) = ["Error can not find CEP: " ++ Error err])
  /\ (forall city err,
        In (WeatherApiClient city, AWeather (Err err)) (trace o) ->
        logLines (trace o)
        = ["Internal error while fetching temperature for the city "
           ++ city ++ ": " ++ Error err]).
Proof.
  intros o. subst o. open_orchestrator.
  steps; finish; reading; cbn [http.Error http.StatusCode app2.writeJSON].
  all: split; [split; intros H; try reflexivity; try discriminate;
                try (elim H; reflexivity)
              |split; intros].
  all: which H; inversion H; subst; try reflexivity.
  all: match goal with
       | Hc : app2.isErrCepNotFound ?e = true, N : ?e <> _ |- _ =>
           destruct e; try discriminate Hc; elim N; reflexivity
       end.
Qed.

(** The Weather Resolver's internal error leaves one line in the log. *)
Lemma orchestrator_logs_internal_errors_witness :
  logLines
    (trace (run (stub.scripted stub.noEnv stub.noNet
                   (fun _ => Ok (viacep_types.mkViaCepResponse
                                   "01001-000" "" "Sampa" "SP" false))
                   stub.noWeather)
              (app2.handler app2.seams (stub.get "cep=01001-000")) tt))
  = ["Internal error while fetching temperature for the city Sampa: "
     ++ Error weatherapi.ErrInternal].
Proof.
  destruct (orchestrator_logs_internal_errors unit
              (stub.scripted stub.noEnv stub.noNet
                 (fun _ => Ok (viacep_types.mkViaCepResponse
                                 "01001-000" "" "Sampa" "SP" false))
                 stub.noWeather)
              tt (stub.get "cep=01001-000")) as (_ & _ & H).
  apply (H "Sampa" weatherapi.ErrInternal).
  simpl. do 2 right. left. reflexivity.
Defined.

Ltac open_main_app :=
  unfold app2.handler, app2.main_app;
  cbn [app2.viaCepClient app2.weatherApiClient];
  unfold viacep.FindAddressByCep, viacep.NewClient,
    weatherapi.FindTemperatureByCity, weatherapi.NewClient,
    http_Client_Do, otelhttp_NewTransport,
    weatherapi.redactingTransport_RoundTrip, http_DefaultTransport;
  cbn [viacep.httpClient viacep.baseURL weatherapi.httpClient
       weatherapi.baseURL weatherapi.apiKey Transport].

(** X12.  The Orchestrator with the two clients [main] gives it.  When the
    address API answers with a status other than 200 the response is the 404
    and the weather API is not contacted.  When the weather API answers with
    a status other than 200 the response is the generic 500, not a 404.
    When an exchange with either fails the response is the generic 500.  A
    request to the Orchestrator costs two upstream requests at most. *)
Theorem orchestrator_with_its_clients (rt : Runtime) (key : string)
    W (env : world W) (w : W) (r : http.Request) :
  let o := run env (app2.handler (app2.main_app rt key) r) w in
  (forall req resp rest,
     networkCalls (trace o)
     = (DefaultTransport req, AResponse (Ok resp)) :: rest ->
     http.StatusCode resp <> http.StatusOK ->
     value o = http.Error (Error viacep.ErrCepNotFound) http.StatusNotFound
     /\ rest = [])
  /\ (forall first req resp,
        networkCalls (trace o)
        = [first; (DefaultTransport req, AResponse (Ok resp))] ->
        http.StatusCode resp <> http.StatusOK ->
        value o = http.Error app2.InternalErrorMessage
                    http.StatusInternalServerError)
  /\ (forall req err,
        In (DefaultTransport req, AResponse (Err err)) (trace o) ->
        value o = http.Error app2.InternalErrorMessage
                    http.StatusInternalServerError)
  /\ (length (networkCalls (trace o)) <= 2)%nat.
Proof.
  intros o. pattern o.
  match goal with |- ?Q o => set (P := Q) end.
  subst o. open_main_app.
  steps; subst P; cbn beta; finish; reading.
  all: split; [|split; [|split]]; intros.
  all: try (cbn [length]; lia).
  all: try discriminate.
  all: try (which H; inversion H; subst; try reflexivity).
  all: try (inversion H; subst).
  all: cbn [app2.isErrCepNotFound viacep.ErrCepNotFound viacep.ErrInternal] in *.
  all: try discriminate.
  all: try (split; reflexivity).
  all: try reflexivity.
  all: status_facts; exfalso; congruence.
Qed.

(** The weather API answers 404 for the city: the Orchestrator answers 500. *)
Lemma orchestrator_with_its_clients_witness :
  value (run (stub.scripted stub.noEnv
                (stub.upstreams stub.saoPaulo
                   (http.mkResponse 404 [] (http.Plain "")))
                stub.noAddress stub.noWeather)
           (app2.handler (app2.main_app stub.runtime "SECRET")
              (stub.get "cep=01001-000")) tt)
  = http.Error app2.InternalErrorMessage http.StatusInternalServerError.
Proof.
  destruct (orchestrator_with_its_clients stub.runtime "SECRET" unit
              (stub.scripted stub.noEnv
                 (stub.upstreams stub.saoPaulo
                    (http.mkResponse 404 [] (http.Plain "")))
                 stub.noAddress stub.noWeather)
              tt (stub.get "cep=01001-000")) as (_ & H & _).
  eapply H.
  - vm_compute. reflexivity.
  - discriminate.
Defined.

(* ================================================================= *)
(** ** The Edge: failures, statuses, requests *)

Ltac open_edge :=
  unfold app1.handler, app1.main_app, http_Client_Do, otelhttp_NewTransport,
    app1.loggingRoundTripper_RoundTrip, http_DefaultTransport;
  cbn [app1.httpClient Transport].

(** X13.  The Edge before its call.  A body that does not decode is
    answered with 400 and the decoder's error text, and nothing else happens.
    When the URL made of [APP2_BASE_URL] and the code does not parse the
    answer is 500 with a fixed message; the error is recorded on the span and
    nothing is sent. *)
Theorem edge_fails_before_the_call (rt : Runtime) W (env : world W) (w : W)
    (r : http.Request) :
  let o := run env (app1.handler rt app1.main_app r) w in
  (forall err,
     app1.DecodeRequest rt (http.Body r) = Err err ->
     value o = http.Error (Error err) http.StatusBadRequest
     /\ calls (trace o) = [TracerStart "/weather-by-cep"; SpanEnd])
  /\ (forall req base err,
        app1.DecodeRequest rt (http.Body r) = Ok req ->
        In (Getenv "APP2_BASE_URL", AString base) (trace o) ->
        NewRequestWithContext rt "GET"
          (base ++ "/get-weather-by-cep?cep=" ++ app1.Cep req) = Err err ->
        value o = http.Error "fail create request to orchestrator service"
                    http.StatusInternalServerError
        /\ recordedErrors (trace o) = [err]
        /\ networkCalls (trace o) = []).
Proof.
  intros o. subst o. open_edge.
  steps; finish; reading; split; intros.
  all: try congruence.
  all: try (split; reflexivity).
  all: try (match goal with
            | A : Err _ = Err _ |- _ => inversion A; subst; split; reflexivity
            end).
  all: match goal with
       | A : Ok _ = Ok _ |- _ => inversion A; subst; clear A
       end.
  all: which H0; inversion H0; subst.
  all: unfold NewRequestWithContext in H1.
  all: match goal with
       | A : url_Parse ?rt ?s = _, B : context [url_Parse ?rt ?s] |- _ =>
           rewrite A in B
       end.
  all: try discriminate.
  all: inversion H1; subst.
  all: repeat split; reflexivity.
Qed.

(** A body that is no JSON: 400, and nothing else happens. *)
Lemma edge_fails_before_the_call_witness :
  calls
    (trace (run (stub.scripted stub.noEnv stub.noNet stub.noAddress
                   stub.noWeather)
              (app1.handler stub.runtime app1.main_app
                 (stub.post (http.Plain "cep=01001-000"))) tt))
  = [TracerStart "/weather-by-cep"; SpanEnd].
Proof.
  destruct (edge_fails_before_the_call stub.runtime unit
              (stub.scripted stub.noEnv stub.noNet stub.noAddress
                 stub.noWeather)
              tt (stub.post (http.Plain "cep=01001-000"))) as [H _].
  destruct (H (ErrLibrary "invalid character looking for beginning of value")
              eq_refl) as (_ & Hc).
  exact Hc.
Defined.

(** X14.  The Edge's handler answers with status 200, 400, 404, 422 or 500,
    or else with the status of the Orchestrator's answer, which is then 400
    or more. *)
Theorem edge_statuses (rt : Runtime) W (env : world W) (w : W)
    (r : http.Request) :
  let o := run env (app1.handler rt app1.main_app r) w in
  In (http.StatusCode (value o))
    [http.StatusOK; http.StatusBadRequest; http.StatusNotFound;
     http.StatusUnprocessableEntity; http.StatusInternalServerError]
  \/ exists req resp,
       networkCalls (trace o) = [(DefaultTransport req, AResponse (Ok resp))]
       /\ http.StatusCode (value o) = http.StatusCode resp
       /\ (http.StatusCode resp >= http.StatusBadRequest)%Z.
Proof.
  intros o. subst o. open_edge.
  steps; finish; reading; cbn [http.Error http.StatusCode app1.writeJSON In].
  all: try (left; tauto).
  right. do 2 eexists. split; [reflexivity|]. split; [reflexivity|].
  status_facts. lia.
Qed.

(** X15.  The Edge sends one request at most per request it serves: a GET
    for [APP2_BASE_URL], as read while serving this request, followed by
    [/get-weather-by-cep?cep=] and the code of the body, which passed
    validation. *)
Theorem edge_single_request (rt : Runtime) W (env : world W) (w : W)
    (r : http.Request) :
  let o := run env (app1.handler rt app1.main_app r) w in
  networkCalls (trace o) = []
  \/ exists cep base req a,
       networkCalls (trace o) = [(DefaultTransport req, AResponse a)]
       /\ app1.DecodeRequest rt (http.Body r) = Ok (app1.mkRequest cep)
       /\ cep_format cep
       /\ In (Getenv "APP2_BASE_URL", AString base) (trace o)
       /\ NewRequestWithContext rt "GET"
            (base ++ "/get-weather-by-cep?cep=" ++ cep) = Ok req.
Proof.
  intros o. subst o. open_edge.
  steps; finish; reading.
  all: try (left; reflexivity).
  all: right; exists (app1.Cep v), x0; do 2 eexists.
  all: split; [reflexivity|].
  all: destruct v as [cep]; cbn [app1.Cep] in *.
  all: split; [reflexivity|].
  all: split; [apply MatchString_iff; apply negb_false_iff; assumption|].
  all: split; [simpl; tauto|].
  all: unfold NewRequestWithContext; rewrite Heqr1; reflexivity.
Qed.

(** X16.  The Edge takes every answer below 400 as a success, a 204 or a
    3xx as much as a 200.  Its response is then the 200 with the encoding of
    what the body decodes to, members the Edge does not know dropped and
    members that are missing at zero; or, when the body does not decode, the
    500 with the decoder's error text, recorded on the span. *)
Theorem edge_accepts_every_status_below_400 (rt : Runtime) W (env : world W)
    (w : W) (r : http.Request) :
  let o := run env (app1.handler rt app1.main_app r) w in
  forall req resp,
    In (DefaultTransport req, AResponse (Ok resp)) (trace o) ->
    (http.StatusCode resp < http.StatusBadRequest)%Z ->
    match app1.DecodeResponse rt (http.ResponseBody resp) with
    | Ok y => value o = app1.writeJSON y
    | Err err =>
        value o = http.Error (Error err) http.StatusInternalServerError
        /\ recordedErrors (trace o) = [err]
    end.
Proof.
  intros o req resp. subst o. open_edge.
  steps; finish; reading; intros Hin Hs; which Hin; inversion Hin; subst.
  all: status_facts; try (exfalso; lia).
  all: match goal with
       | A : app1.DecodeResponse _ _ = _ |- _ => rewrite A
       end.
  all: try reflexivity.
  split; reflexivity.
Qed.

(** A 204 with the document in its body goes out as a 200. *)
Lemma edge_accepts_every_status_below_400_witness :
  value (run (stub.scripted (fun _ => "http://app2:8080")
                (stub.replies 204
                   (http.Document
                      (json.JObject [("city", json.JString "Sampa");
                                     ("extra", json.JBool true)])))
                stub.noAddress stub.noWeather)
           (app1.handler stub.runtime app1.main_app
              (stub.post (stub.cepBody "01001-000"))) tt)
  = app1.writeJSON (app1.mkResponse "Sampa" 0 0 0).
Proof.
  unshelve eapply (edge_accepts_every_status_below_400 stub.runtime unit
           (stub.scripted (fun _ => "http://app2:8080")
              (stub.replies 204
                 (http.Document
                    (json.JObject [("city", json.JString "Sampa");
                                   ("extra", json.JBool true)])))
              stub.noAddress stub.noWeather)
           tt (stub.post (stub.cepBody "01001-000")) _
           (http.mkResponse 204 []
              (http.Document
                 (json.JObject [("city", json.JString "Sampa");
                                ("extra", json.JBool true)]))) _ _).
  - exact (http.mkRequest "GET"
             (url.mkURL "http" "app2:8080" "/get-weather-by-cep"
                "cep=01001-000" "") [] (http.Plain "")).
  - simpl. do 4 right. left. reflexivity.
  - reflexivity.
Defined.

(* ================================================================= *)
(** ** From the Edge to the Orchestrator, and the logging wrappers *)

Lemma digit_not_escaped c : digit c -> url.shouldEscape c = false.
Proof.
  intros H. apply inRange_digit in H. unfold url.shouldEscape, url.isAlnum.
  rewrite H, orb_true_r. reflexivity.
Qed.

Lemma cep_needs_no_escaping cep : cep_format cep -> url.QueryEscape cep = cep.
Proof.
  intros (d1 & d2 & Hs & H1 & H2 & F1 & F2).
  rewrite <- (string_of_list_ascii_of_string cep), Hs.
  do 6 (destruct d1 as [|? d1]; try discriminate H1).
  do 4 (destruct d2 as [|? d2]; try discriminate H2).
  repeat match goal with
         | H : Forall _ (_ :: _) |- _ => inversion H; subst; clear H
         end.
  repeat match goal with
         | H : digit _ |- _ => apply digit_not_escaped in H
         end.
  cbn [app string_of_list_ascii url.QueryEscape].
  repeat match goal with
         | H : url.shouldEscape _ = false |- _ => rewrite H; clear H
         end.
  reflexivity.
Qed.

Lemma ParseQuery_piece k v :
  url.ParseQuery (piece k v) = [(k, [v])].
Proof.
  unfold url.ParseQuery. rewrite split_whole by (apply contains_piece; tauto).
  cbn [fold_left]. apply parsePair_piece.
Qed.

(** X17.  A code that passed validation needs no escaping.  The query the
    Edge builds by concatenation is the one [Encode] would write; the
    Orchestrator reads the same code back from it, accepts it, and calls the
    Address Resolver with it. *)
Theorem validated_code_travels_unescaped (cep : string) :
  cep_format cep ->
  url.Values_Encode [("cep", [cep])] = "cep=" ++ cep
  /\ url.ParseQuery ("cep=" ++ cep) = [("cep", [cep])]
  /\ forall W (env : world W) (w : W) method (u : url.URL) header body,
       In (ViaCepClient cep)
          (calls (trace (run env
                           (app2.handler app2.seams
                              (http.mkRequest method
                                 (url.setRawQuery u ("cep=" ++ cep))
                                 header body))
                           w))).
Proof.
  intros Hcep.
  assert ("cep=" ++ cep = piece "cep" cep) as Hp.
  { unfold piece. rewrite (cep_needs_no_escaping cep Hcep). reflexivity. }
  assert (url.ParseQuery ("cep=" ++ cep) = [("cep", [cep])]) as Hq.
  { rewrite Hp. apply ParseQuery_piece. }
  split; [|split].
  - rewrite Hp. reflexivity.
  - exact Hq.
  - intros W env w method u header body.
    pose proof (orchestrator_validation W env w
                  (http.mkRequest method (url.setRawQuery u ("cep=" ++ cep))
                     header body)) as Hv.
    cbn zeta in Hv. unfold url.URL_Query in Hv.
    cbn [http.URL url.setRawQuery url.RawQuery] in Hv.
    rewrite Hq in Hv. cbn [url.Values_Get String.eqb Ascii.eqb Bool.eqb hd] in Hv.
    apply Hv. exact Hcep.
Qed.

(** The code of the package's test passes from the Edge's URL to the
    Orchestrator's query. *)
Lemma validated_code_travels_unescaped_witness :
  url.ParseQuery "cep=01001-000" = [("cep", ["01001-000"])].
Proof.
  refine (proj1 (proj2 (validated_code_travels_unescaped "01001-000" _))).
  apply MatchString_iff. reflexivity.
Defined.

Lemma run_logHeaders W (env : world W) (h : list (string * string)) (w : W) :
  trace (run env (app1.logHeaders h) w) = map (fun nv => logged (headerLine nv)) h.
Proof.
  revert w. induction h as [|[name v] h IH]; intros w; [reflexivity|].
  cbn [app1.logHeaders bind call run]. 
  destruct (env (LoggerPrintf ("Header: " ++ name ++ ": " ++ v)) w) as [x w'].
  cbn [bind run trace map]. rewrite IH. reflexivity.
Qed.

(** X18.  The Edge's logging round tripper writes a delimiter, one line per
    header of the request (in the order of the list; Go leaves the order of a
    map open), and a delimiter, and then does what [next] does with the same
    request, whose result it returns. *)
Theorem logging_round_tripper_is_transparent (next : RoundTripper)
    (r : http.Request) W (env : world W) (w : W) :
  let o := run env (app1.loggingRoundTripper_RoundTrip next r) w in
  exists w',
    trace o
    = (logged "------- Headers send -------"
       :: map (fun nv => logged (headerLine nv)) (http.Header r)
       ++ logged "-----------------------------"
       :: trace (run env (next r) w'))%list
    /\ value o = value (run env (next r) w')
    /\ final o = final (run env (next r) w').
Proof.
  intros o. subst o. unfold app1.loggingRoundTripper_RoundTrip.
  cbn [bind call run].
  destruct (env (LoggerPrintf "------- Headers send -------") w) as [x w1].
  cbn [bind]. rewrite run_bind. cbn zeta. rewrite run_logHeaders.
  set (w2 := final (run env (app1.logHeaders (http.Header r)) w1)).
  cbn [bind call run value].
  destruct (env (LoggerPrintf "-----------------------------") w2) as [y w3].
  cbn [bind run]. exists w3. cbn [trace value final].
  split; [|split; reflexivity].
  unfold logged. cbn [reify]. f_equal.
Qed.

(** X19.  The access-log wrappers of both services write their lines (app2
    every header it received first) and then do what the wrapped handler
    does with the same request, whose response they return. *)
Theorem access_log_is_transparent (requestURI : url.URL -> string)
    (next : http.Request -> prog http.Response) (remoteAddr : string)
    (r : http.Request) W (env : world W) (w : W) :
  (let o := run env (app1_logRequest requestURI next remoteAddr r) w in
   exists w',
     trace o
     = logged (accessLine requestURI remoteAddr r) :: trace (run env (next r) w')
     /\ value o = value (run env (next r) w'))
  /\ (let o := run env (app2_logRequest requestURI next remoteAddr r) w in
      exists w',
        trace o
        = (logged "--- Headers Recebidos ---"
           :: map (fun nv => logged (headerLine nv)) (http.Header r)
           ++ logged "-------------------------"
           :: logged (accessLine requestURI remoteAddr r)
           :: trace (run env (next r) w'))%list
        /\ value o = value (run env (next r) w')).
Proof.
  split; intros o; subst o.
  - unfold app1_logRequest. cbn [bind call run].
    destruct (env (LoggerPrintf (accessLine requestURI remoteAddr r)) w)
      as [x w1].
    cbn [bind run trace value]. exists w1. split; reflexivity.
  - unfold app2_logRequest. cbn [bind call run].
    destruct (env (LoggerPrintf "--- Headers Recebidos ---") w) as [x w1].
    cbn [bind]. rewrite run_bind. cbn zeta. rewrite run_logHeaders.
    set (w2 := final (run env (app1.logHeaders (http.Header r)) w1)).
    cbn [bind call run value].
    destruct (env (LoggerPrintf "-------------------------") w2) as [y w3].
    cbn [bind run].
    destruct (env (LoggerPrintf (accessLine requestURI remoteAddr r)) w3)
      as [z w4].
    cbn [bind run]. exists w4. cbn [trace value final].
    split; [|reflexivity]. unfold logged. cbn [reify]. f_equal.
Qed.
